(** * Retrieval question answering: [langchain/chains/retrieval_qa/base.py]

    A shallow embedding of the three classes of the module
    ([BaseRetrievalQA], [RetrievalQA], [VectorDBQA]) and of the Python
    and pydantic machinery their methods rely on, followed by the
    properties of the design document that can be settled on the code.

    Conventions.
    - Python dictionaries whose order is never observed are [gmap]s.
    - A Python exception is a value of [exn]; a computation that may
      raise returns a [Res].
    - Calls into collaborators (vector store, retriever, language model,
      combine-documents chain) run in the monad [M], which threads the
      collaborators' state and appends one [Call] event per invocation. *)

From Stdlib Require Import ZArith Ascii.
From stdpp Require Import base strings gmap list sorting.

Local Open Scope Z_scope.

(** ** Python values and exceptions *)

Module Py.

(** Scalars, the values found in [search_kwargs] and in document
    metadata ([Dict[str, Any]] with the nesting left out). *)
Inductive Atom :=
| ANone
| ABool (b : bool)
| AInt (z : Z)
| AStr (s : string).

(** The exception classes the module can raise or let through.
    [ValidationError] is pydantic's, with its list of
    (location, message) entries; [OtherError] stands for whatever a
    collaborator raises. *)
Inductive exn :=
| ValueError (msg : string)
| KeyError (key : string)
| TypeError (msg : string)
| ValidationError (errors : list (string * string))
| OtherError (cls msg : string).

Inductive Res (A : Type) :=
| Ok (a : A)
| Raise (e : exn).
Arguments Ok {A} a.
Arguments Raise {A} e.

Global Instance Res_ret : MRet Res := λ A, Ok.
Global Instance Res_bind : MBind Res := λ A B f r,
  match r with
  | Ok a => f a
  | Raise e => Raise e
  end.
Global Instance Res_fmap : FMap Res := λ A B f r,
  match r with
  | Ok a => Ok (f a)
  | Raise e => Raise e
  end.

Definition is_Ok {A} (r : Res A) : Prop :=
  match r with
  | Ok _ => True
  | Raise _ => False
  end.

Definition nl : string := Eval cbv in String (Ascii.ascii_of_nat 10) "".

(** [d[key]] on a dictionary. *)
Definition getitem {V} (d : gmap string V) (key : string) : Res V :=
  match d !! key with
  | Some v => Ok v
  | None => Raise (KeyError key)
  end.

(** The message of a repeated keyword, as it reads after the name of the
    callee that Python puts in front of it. *)
Definition multiple_values (name : string) : exn :=
  TypeError ("got multiple values for keyword argument '" +:+ name +:+ "'").

(** The keyword part of a call [f(..., name=v, **star)]: Python builds
    the keyword dictionary at the call site and raises [TypeError],
    without entering [f], when [star] repeats the explicit keyword. *)
Definition keyword_and_star {V} (name : string) (v : V) (star : gmap string V)
  : Res (gmap string V) :=
  match star !! name with
  | Some _ => Raise (multiple_values name)
  | None => Ok (<[name := v]> star)
  end.

(** [sep.join(parts)] *)
Fixpoint join (sep : string) (parts : list string) : string :=
  match parts with
  | [] => ""
  | [p] => p
  | p :: ps => p +:+ sep +:+ join sep ps
  end.

End Py.
Export Py.

(** ** Documents, prompts and collaborators *)

Record Document := {
  page_content : string;
  metadata : gmap string Atom
}.

(** Collaborator objects are known by reference only. *)
Inductive VectorStore := VectorStoreRef (id : nat).
Inductive BaseRetriever := RetrieverRef (id : nat).
Inductive BaseLanguageModel := LanguageModelRef (id : nat).

Record PromptTemplate := {
  input_variables : list string;
  template : string
}.

Record LLMChain := {
  llm : BaseLanguageModel;
  prompt : PromptTemplate
}.

(** A [BaseCombineDocumentsChain] is either the [StuffDocumentsChain]
    that [from_llm] builds, or some chain returned by [load_qa_chain],
    of which only the reference is known. *)
Inductive BaseCombineDocumentsChain :=
| StuffDocumentsChain (llm_chain : LLMChain) (document_variable_name : string)
    (document_prompt : PromptTemplate)
| LoadedChain (id : nat).

(** Values that can be passed as keyword arguments to the constructors. *)
Inductive PyVal :=
| VNone
| VBool (b : bool)
| VInt (z : Z)
| VStr (s : string)
| VDict (d : gmap string Atom)
| VChain (c : BaseCombineDocumentsChain)
| VVectorStore (v : VectorStore)
| VRetriever (r : BaseRetriever)
| VObject (cls : string).

(** One event per call that leaves the module. *)
Inductive Call :=
| Call_similarity_search (vs : VectorStore) (query : string) (k : Z)
    (kwargs : gmap string Atom)
| Call_max_marginal_relevance_search (vs : VectorStore) (query : string) (k : Z)
    (kwargs : gmap string Atom)
| Call_get_relevant_texts (r : BaseRetriever) (query : string)
| Call_combine_docs (c : BaseCombineDocumentsChain) (docs : list Document)
    (question : string)
| Call_llm (m : BaseLanguageModel) (text : string).

(** The behaviour of the collaborators: each capability is a function of
    its arguments and of the collaborators' own state, and may raise.  A
    chain returned by [load_qa_chain] calls the language model as often
    as its type has it (once, or once per document and more): with its
    outcome it gives the model and prompt of each of these calls, in
    order. *)
Class Collaborators := {
  World : Type;
  similarity_search :
    VectorStore → string → Z → gmap string Atom → World → Res (list Document) * World;
  max_marginal_relevance_search :
    VectorStore → string → Z → gmap string Atom → World → Res (list Document) * World;
  get_relevant_texts :
    BaseRetriever → string → World → Res (list Document) * World;
  llm_generate :
    BaseLanguageModel → string → World → Res string * World;
  loaded_combine_docs :
    nat → list Document → string → World →
    Res (string * gmap string Atom) * World * list (BaseLanguageModel * string)
}.

Section Effects.
Context {CO : Collaborators}.

Record State := {
  world : World;
  trace : list Call
}.

Definition M (A : Type) : Type := State → Res A * State.

Global Instance M_ret : MRet M := λ A a st, (Ok a, st).
Global Instance M_bind : MBind M := λ A B f m st,
  match m st with
  | (Ok a, st') => f a st'
  | (Raise e, st') => (Raise e, st')
  end.

Definition raise {A} (e : exn) : M A := λ st, (Raise e, st).

Definition lift {A} (r : Res A) : M A := λ st, (r, st).

Definition log (c : Call) : M unit := λ st,
  (Ok (), {| world := world st; trace := trace st ++ [c] |}).

(** Enter a collaborator: log the call, let it work on its state. *)
Definition invoke {A} (c : Call) (impl : World → Res A * World) : M A := λ st,
  let '(r, w) := impl (world st) in
  (r, {| world := w; trace := trace st ++ [c] |}).

End Effects.

(** ** pydantic: field validation, forbidden extras, root validators *)

Inductive Validated (A : Type) :=
| Valid (a : A)
| Invalid (msg : string).
Arguments Valid {A} a.
Arguments Invalid {A} msg.

(** The names declared by the three classes of the module. *)
Definition base_fields : list string :=
  ["combine_documents_chain"; "input_key"; "output_key"; "return_source_documents"].
Definition RetrievalQA_fields : list string := base_fields ++ ["retriever"].
Definition VectorDBQA_fields : list string :=
  base_fields ++ ["vectorstore"; "k"; "search_type"; "search_kwargs"].

(** What the module imports and this file does not define: pydantic's
    coercion of a raw value to [str], [int], [bool] and [Dict[str, Any]]
    (of which only the fact that a value of the declared type validates
    to itself is used), the fields that the parent class
    [langchain.chains.base.Chain] declares together with the errors their
    validation reports, the validation that the constructors of
    [LLMChain] and [StuffDocumentsChain] perform on their arguments,
    [PROMPT_SELECTOR.get_prompt] and [load_qa_chain]. *)
Class Framework := {
  str_validator : PyVal → Validated string;
  int_validator : PyVal → Validated Z;
  bool_validator : PyVal → Validated bool;
  dict_validator : PyVal → Validated (gmap string Atom);
  str_validator_str : ∀ s, str_validator (VStr s) = Valid s;
  int_validator_int : ∀ z, int_validator (VInt z) = Valid z;
  bool_validator_bool : ∀ b, bool_validator (VBool b) = Valid b;
  dict_validator_dict : ∀ d, dict_validator (VDict d) = Valid d;
  chain_fields : list string;
  chain_validate : gmap string PyVal → list (string * string);
  chain_fields_inherited :
    Forall (λ f, f ∉ RetrievalQA_fields ++ VectorDBQA_fields) chain_fields;
  LLMChain_validate : BaseLanguageModel → PromptTemplate → list (string * string);
  StuffDocumentsChain_validate :
    LLMChain → string → PromptTemplate → list (string * string);
  get_prompt : BaseLanguageModel → PromptTemplate;
  load_qa_chain :
    BaseLanguageModel → string → gmap string PyVal → Res BaseCombineDocumentsChain
}.

Module Pydantic.

Definition Errors : Type := list (string * string).

Definition ROOT_KEY : string := "__root__".

(** With [arbitrary_types_allowed], a field of a class type accepts
    the instances of that class. *)
Definition chain_validator (v : PyVal) : Validated BaseCombineDocumentsChain :=
  match v with
  | VChain c => Valid c
  | _ => Invalid "instance of BaseCombineDocumentsChain expected"
  end.

Definition vectorstore_validator (v : PyVal) : Validated VectorStore :=
  match v with
  | VVectorStore vs => Valid vs
  | _ => Invalid "instance of VectorStore expected"
  end.

Definition retriever_validator (v : PyVal) : Validated BaseRetriever :=
  match v with
  | VRetriever r => Valid r
  | _ => Invalid "instance of BaseRetriever expected"
  end.

(** One field of [validate_model]: the supplied value is validated; a
    missing one is an error when the field is required and the default
    otherwise.  The field enters [values] only when it has no error. *)
Definition validate_field {A} (input : gmap string PyVal) (name : string)
    (validator : PyVal → Validated A) (default : option A) : option A * Errors :=
  match input !! name with
  | Some v =>
      match validator v with
      | Valid a => (Some a, [])
      | Invalid msg => (None, [(name, msg)])
      end
  | None =>
      match default with
      | Some d => (Some d, [])
      | None => (None, [(name, "field required")])
      end
  end.

Definition String_le : relation string := λ a b, String.leb a b = true.
Global Instance String_le_dec a b : Decision (String_le a b).
Proof. unfold String_le. apply _. Defined.

(** [extra = Extra.forbid]: one error per supplied name that is not a
    field, in sorted order. *)
Definition extra_errors (fields : list string) (input : gmap string PyVal) : Errors :=
  (λ f, (f, "extra fields not permitted")) <$>
    merge_sort String_le (elements (dom (filter (λ kv, kv.1 ∉ fields) input))).

(** A post root validator sees [values]; the [ValueError] or
    [TypeError] it raises (or [AssertionError], which nothing here
    raises) becomes an error located at [ROOT_KEY], any other exception
    propagates. *)
Definition run_root_validator {V} (validator : V → Res V) (values : V)
    (errors : Errors) : Res (V * Errors) :=
  match validator values with
  | Ok values' => Ok (values', errors)
  | Raise (ValueError msg) => Ok (values, errors ++ [(ROOT_KEY, msg)])
  | Raise (TypeError msg) => Ok (values, errors ++ [(ROOT_KEY, msg)])
  | Raise e => Raise e
  end.

(** The end of [validate_model]: the instance when no error was
    reported, [ValidationError] with all of them otherwise.  [object] is
    the instance built from [values], which exists once every field has
    validated. *)
Definition validated {T} (errors : Errors) (object : option T) : Res T :=
  match errors, object with
  | [], Some self => Ok self
  | _, _ => Raise (ValidationError errors)
  end.

(** The inherited fields see only their own part of the input. *)
Definition chain_errors {FW : Framework} (input : gmap string PyVal) : Errors :=
  chain_validate (filter (λ kv, kv.1 ∈ chain_fields) input).

End Pydantic.
Import Pydantic.

(** ** The fields of [BaseRetrievalQA] *)

Record BaseRetrievalQA := {
  combine_documents_chain : BaseCombineDocumentsChain;
  input_key : string;
  output_key : string;
  return_source_documents : bool
}.

(** [values] while the model is validated: a field is present once it
    has validated, and then holds a value of its declared type. *)
Record BaseValues := {
  values_combine_documents_chain : option BaseCombineDocumentsChain;
  values_input_key : option string;
  values_output_key : option string;
  values_return_source_documents : option bool
}.

Definition complete_base (values : BaseValues) : option BaseRetrievalQA :=
  c ← values_combine_documents_chain values;
  i ← values_input_key values;
  o ← values_output_key values;
  r ← values_return_source_documents values;
  Some {| combine_documents_chain := c; input_key := i; output_key := o;
          return_source_documents := r |}.

Definition validate_base_fields {FW : Framework} (input : gmap string PyVal)
  : BaseValues * Errors :=
  let '(c, e1) := validate_field input "combine_documents_chain" chain_validator None in
  let '(i, e2) := validate_field input "input_key" str_validator (Some "query") in
  let '(o, e3) := validate_field input "output_key" str_validator (Some "result") in
  let '(r, e4) :=
    validate_field input "return_source_documents" bool_validator (Some false) in
  ({| values_combine_documents_chain := c; values_input_key := i;
      values_output_key := o; values_return_source_documents := r |},
   e1 ++ e2 ++ e3 ++ e4).

(** ** [class RetrievalQA(BaseRetrievalQA, BaseModel)] *)

Module RetrievalQA.

Record t := {
  base :> BaseRetrievalQA;
  retriever : BaseRetriever
}.

Record Values := {
  values_base : BaseValues;
  values_retriever : option BaseRetriever
}.

Definition complete (values : Values) : option t :=
  b ← complete_base (values_base values);
  r ← values_retriever values;
  Some {| base := b; retriever := r |}.

Section methods.
Context {FW : Framework} {CO : Collaborators}.

Definition validate_fields (input : gmap string PyVal) : Values * Errors :=
  let '(b, e0) := validate_base_fields input in
  let '(r, e1) := validate_field input "retriever" retriever_validator None in
  ({| values_base := b; values_retriever := r |}, e0 ++ e1).

(** The constructor, called with keyword arguments [kwargs]. *)
Definition init (kwargs : gmap string PyVal) : Res t :=
  let '(values, errors) := validate_fields kwargs in
  let errors :=
    chain_errors kwargs ++ errors
      ++ extra_errors (chain_fields ++ RetrievalQA_fields) kwargs in
  validated errors (complete values).

Definition _get_docs (self : t) (question : string) : M (list Document) :=
  invoke (Call_get_relevant_texts (retriever self) question)
         (get_relevant_texts (retriever self) question).

End methods.

End RetrievalQA.

(** ** [class VectorDBQA(BaseRetrievalQA, BaseModel)] *)

Module VectorDBQA.

Record t := {
  base :> BaseRetrievalQA;
  vectorstore : VectorStore;
  k : Z;
  search_type : string;
  search_kwargs : gmap string Atom
}.

Record Values := {
  values_base : BaseValues;
  values_vectorstore : option VectorStore;
  values_k : option Z;
  values_search_type : option string;
  values_search_kwargs : option (gmap string Atom)
}.

Definition complete (values : Values) : option t :=
  b ← complete_base (values_base values);
  vs ← values_vectorstore values;
  k ← values_k values;
  st ← values_search_type values;
  kw ← values_search_kwargs values;
  Some {| base := b; vectorstore := vs; k := k; search_type := st;
          search_kwargs := kw |}.

(** The instance with one field replaced. *)
Definition set_k (z : Z) (self : t) : t :=
  {| base := base self; vectorstore := vectorstore self; k := z;
     search_type := search_type self; search_kwargs := search_kwargs self |}.

Definition set_search_type (mode : string) (self : t) : t :=
  {| base := base self; vectorstore := vectorstore self; k := k self;
     search_type := mode; search_kwargs := search_kwargs self |}.

Definition not_allowed (search_type : string) : string :=
  "search_type of " +:+ search_type +:+ " not allowed.".

(** [@root_validator() def validate_search_type(cls, values)] *)
Definition validate_search_type (values : Values) : Res Values :=
  match values_search_type values with
  | Some search_type =>
      if bool_decide (search_type ∉ ["similarity"; "mmr"])
      then Raise (ValueError (not_allowed search_type))
      else Ok values
  | None => Ok values
  end.

(** What the root validator adds to the errors. *)
Definition search_type_errors (values : VectorDBQA.Values) : Errors :=
  match values_search_type values with
  | Some s =>
      if bool_decide (s ∉ ["similarity"; "mmr"])
      then [(ROOT_KEY, not_allowed s)]
      else []
  | None => []
  end.

Section methods.
Context {FW : Framework} {CO : Collaborators}.

Definition validate_fields (input : gmap string PyVal) : Values * Errors :=
  let '(b, e0) := validate_base_fields input in
  let '(vs, e1) := validate_field input "vectorstore" vectorstore_validator None in
  let '(k, e2) := validate_field input "k" int_validator (Some 4) in
  let '(st, e3) :=
    validate_field input "search_type" str_validator (Some "similarity") in
  let '(kw, e4) := validate_field input "search_kwargs" dict_validator (Some ∅) in
  ({| values_base := b; values_vectorstore := vs; values_k := k;
      values_search_type := st; values_search_kwargs := kw |},
   e0 ++ e1 ++ e2 ++ e3 ++ e4).

(** The constructor, called with keyword arguments [kwargs]. *)
Definition init (kwargs : gmap string PyVal) : Res t :=
  let '(values, errors) := validate_fields kwargs in
  let errors :=
    chain_errors kwargs ++ errors
      ++ extra_errors (chain_fields ++ VectorDBQA_fields) kwargs in
  '(values, errors) ← run_root_validator validate_search_type values errors;
  validated errors (complete values).

(** The call [method(question, k=self.k, **self.search_kwargs)] that
    both branches of [_get_docs] make, each on its own search method of
    the vector store: the keywords are put together first, then the
    method is entered. *)
Definition search
    (event : VectorStore → string → Z → gmap string Atom → Call)
    (method : VectorStore → string → Z → gmap string Atom → World →
              Res (list Document) * World)
    (self : t) (question : string) : M (list Document) :=
  _ ← lift (keyword_and_star "k" (AInt (k self)) (search_kwargs self));
  invoke (event (vectorstore self) question (k self) (search_kwargs self))
         (method (vectorstore self) question (k self) (search_kwargs self)).

Definition _get_docs (self : t) (question : string) : M (list Document) :=
  if bool_decide (search_type self = "similarity") then
    search Call_similarity_search similarity_search self question
  else if bool_decide (search_type self = "mmr") then
    search Call_max_marginal_relevance_search max_marginal_relevance_search
      self question
  else
    raise (ValueError (not_allowed (search_type self))).

Definition _chain_type (self : t) : string := "vector_db_qa".

End methods.

End VectorDBQA.

(** ** The combine-documents chain built by [from_llm] *)

Module Stuff.

(** Modelled from the spec: [PromptTemplate.format] is not part of the
    module.  The design document has a template hold placeholders
    written [{name}] that are substituted by the text bound to [name];
    the text outside placeholders is copied.  [field] is the name
    being read when the scan is inside a placeholder. *)
Fixpoint format_from (t : string) (field : option string)
    (vars : gmap string string) : Res string :=
  match t, field with
  | EmptyString, None => Ok ""
  | EmptyString, Some _ => Raise (ValueError "expected '}' before end of string")
  | String c t', None =>
      if Ascii.eqb c "{"%char then format_from t' (Some "") vars
      else String c <$> format_from t' None vars
  | String c t', Some name =>
      if Ascii.eqb c "}"%char then
        v ← getitem vars name;
        String.append v <$> format_from t' None vars
      else format_from t' (Some (name +:+ String c "")) vars
  end.

Definition format (p : PromptTemplate) (vars : gmap string string) : Res string :=
  format_from (template p) None vars.

Definition separator : string := nl +:+ nl.

(** Modelled from the spec: the DocumentAssembler of
    [StuffDocumentsChain], which is not part of the module.  Each
    document's text body goes through the document prompt, and the
    results are joined, in the order received, by the separator. *)
Definition assemble (document_prompt : PromptTemplate) (docs : list Document)
  : Res string :=
  parts ← mapM (λ doc, format document_prompt {[ "page_content" := page_content doc ]})
               docs;
  Ok (join separator parts).

Section combine.
Context {CO : Collaborators}.

(** Modelled from the spec: the AnswerSynthesizer over the
    single-pass assembly.  The context is assembled, substituted with
    the question into the prompt of the chain, the language model is
    called once and its text is the answer; the auxiliary mapping is
    empty. *)
Definition combine_docs (llm_chain : LLMChain) (document_variable_name : string)
    (document_prompt : PromptTemplate) (docs : list Document) (question : string)
  : M (string * gmap string Atom) :=
  context ← lift (assemble document_prompt docs);
  text ← lift (format (prompt llm_chain)
                 (<[document_variable_name := context]> {[ "question" := question ]}));
  answer ← invoke (Call_llm (llm llm_chain) text) (llm_generate (llm llm_chain) text);
  mret (answer, ∅).

End combine.

End Stuff.

(** ** [class BaseRetrievalQA(Chain, BaseModel)] *)

(** The two concrete classes a classmethod can be called on, and their
    instances. *)
Inductive cls :=
| RetrievalQA_cls
| VectorDBQA_cls.

Inductive Self :=
| RetrievalQA_self (self : RetrievalQA.t)
| VectorDBQA_self (self : VectorDBQA.t).

Definition base_of (self : Self) : BaseRetrievalQA :=
  match self with
  | RetrievalQA_self self => RetrievalQA.base self
  | VectorDBQA_self self => VectorDBQA.base self
  end.
Coercion base_of : Self >-> BaseRetrievalQA.

Definition fields_of (c : cls) : list string :=
  match c with
  | RetrievalQA_cls => RetrievalQA_fields
  | VectorDBQA_cls => VectorDBQA_fields
  end.

(** A value of the result dictionary, a [Dict[str, Any]]. *)
Inductive Output :=
| OutStr (s : string)
| OutDocs (docs : list Document).

Definition input_keys (self : BaseRetrievalQA) : list string :=
  [input_key self].

Definition output_keys (self : BaseRetrievalQA) : list string :=
  let _output_keys := [output_key self] in
  if return_source_documents self
  then _output_keys ++ ["source_documents"]
  else _output_keys.

Section BaseRetrievalQA_methods.
Context {FW : Framework} {CO : Collaborators}.

(** [cls(...)] with the keyword arguments collected in [kwargs]. *)
Definition instantiate (c : cls) (kwargs : gmap string PyVal) : Res Self :=
  match c with
  | RetrievalQA_cls => RetrievalQA_self <$> RetrievalQA.init kwargs
  | VectorDBQA_cls => VectorDBQA_self <$> VectorDBQA.init kwargs
  end.

Definition document_template : string :=
  Eval cbv in "Context:" +:+ nl +:+ "{page_content}".

(** [LLMChain(...)] and [StuffDocumentsChain(...)] are pydantic
    constructors too: each yields its object unless its validation
    reports errors.  The document prompt is a constant. *)
Definition from_llm (c : cls) (llm : BaseLanguageModel)
    (prompt : option PromptTemplate) (kwargs : gmap string PyVal) : Res Self :=
  let _prompt :=
    match prompt with
    | Some p => p
    | None => get_prompt llm
    end in
  llm_chain ← validated (LLMChain_validate llm _prompt)
                (Some {| llm := llm; prompt := _prompt |});
  let document_prompt :=
    {| input_variables := ["page_content"]; template := document_template |} in
  combine_documents_chain ←
    validated (StuffDocumentsChain_validate llm_chain "context" document_prompt)
      (Some (StuffDocumentsChain llm_chain "context" document_prompt));
  kwargs ← keyword_and_star "combine_documents_chain"
             (VChain combine_documents_chain) kwargs;
  instantiate c kwargs.

Definition from_chain_type (c : cls) (llm : BaseLanguageModel)
    (chain_type : option string) (chain_type_kwargs : option (gmap string PyVal))
    (kwargs : gmap string PyVal) : Res Self :=
  let chain_type :=
    match chain_type with
    | Some t => t
    | None => "stuff"
    end in
  let _chain_type_kwargs :=
    match chain_type_kwargs with
    | Some d => d
    | None => ∅
    end in
  _ ← keyword_and_star "chain_type" (VStr chain_type) _chain_type_kwargs;
  combine_documents_chain ← load_qa_chain llm chain_type _chain_type_kwargs;
  kwargs ← keyword_and_star "combine_documents_chain"
             (VChain combine_documents_chain) kwargs;
  instantiate c kwargs.

(** The abstract method, resolved on the class of [self]. *)
Definition _get_docs (self : Self) (question : string) : M (list Document) :=
  match self with
  | RetrievalQA_self self => RetrievalQA._get_docs self question
  | VectorDBQA_self self => VectorDBQA._get_docs self question
  end.

(** [self.combine_documents_chain.combine_docs(docs, question=question)] *)
Definition combine_docs (chain : BaseCombineDocumentsChain) (docs : list Document)
    (question : string) : M (string * gmap string Atom) :=
  _ ← log (Call_combine_docs chain docs question);
  match chain with
  | StuffDocumentsChain llm_chain document_variable_name document_prompt =>
      Stuff.combine_docs llm_chain document_variable_name document_prompt
        docs question
  | LoadedChain id => λ st,
      let '(r, w, calls) := loaded_combine_docs id docs question (world st) in
      (r, {| world := w;
             trace := trace st ++ ((λ call, Call_llm call.1 call.2) <$> calls) |})
  end.

Definition _call (self : Self) (inputs : gmap string string)
  : M (gmap string Output) :=
  question ← lift (getitem inputs (input_key self));
  docs ← _get_docs self question;
  '(answer, _) ← combine_docs (combine_documents_chain self) docs question;
  if return_source_documents self then
    mret (<["source_documents" := OutDocs docs]> {[ output_key self := OutStr answer ]})
  else
    mret {[ output_key self := OutStr answer ]}.

End BaseRetrievalQA_methods.

(** The call into the retrieval backend that [_get_docs] logs when it
    returns documents: the retriever's for a [RetrievalQA], the search
    selected by [search_type] for a [VectorDBQA]. *)
Definition retrieval_call (self : Self) (question : string) : Call :=
  match self with
  | RetrievalQA_self self =>
      Call_get_relevant_texts (RetrievalQA.retriever self) question
  | VectorDBQA_self self =>
      (if bool_decide (VectorDBQA.search_type self = "similarity")
       then Call_similarity_search
       else Call_max_marginal_relevance_search)
        (VectorDBQA.vectorstore self) question (VectorDBQA.k self)
        (VectorDBQA.search_kwargs self)
  end.

(** ** Stub collaborators

    A retriever and a vector store that return fixed documents, a
    language model that echoes its prompt, and a framework whose
    coercions accept exactly the values of the declared type. *)

Module Stub.

Definition strict_str (v : PyVal) : Validated string :=
  match v with
  | VStr s => Valid s
  | _ => Invalid "str type expected"
  end.

Definition strict_int (v : PyVal) : Validated Z :=
  match v with
  | VInt z => Valid z
  | _ => Invalid "value is not a valid integer"
  end.

Definition strict_bool (v : PyVal) : Validated bool :=
  match v with
  | VBool b => Valid b
  | _ => Invalid "value could not be parsed to a boolean"
  end.

Definition strict_dict (v : PyVal) : Validated (gmap string Atom) :=
  match v with
  | VDict d => Valid d
  | _ => Invalid "value is not a valid dict"
  end.

Definition Chain_fields : list string := ["memory"; "callback_manager"; "verbose"].

Definition default_prompt : PromptTemplate :=
  {| input_variables := ["context"; "question"];
     template := "{context} Question: {question}" |}.

Definition framework : Framework := {|
  str_validator := strict_str;
  int_validator := strict_int;
  bool_validator := strict_bool;
  dict_validator := strict_dict;
  str_validator_str := λ _, eq_refl;
  int_validator_int := λ _, eq_refl;
  bool_validator_bool := λ _, eq_refl;
  dict_validator_dict := λ _, eq_refl;
  chain_fields := Chain_fields;
  chain_validate := λ _, [];
  chain_fields_inherited :=
    bool_decide_unpack
      (Forall (λ f, f ∉ RetrievalQA_fields ++ VectorDBQA_fields) Chain_fields) I;
  LLMChain_validate := λ _ _, [];
  StuffDocumentsChain_validate := λ _ _ _, [];
  get_prompt := λ _, default_prompt;
  load_qa_chain := λ _ _ _, Ok (LoadedChain 0)
|}.

Definition paris : Document :=
  {| page_content := "Paris is the capital of France."; metadata := ∅ |}.
Definition lyon : Document :=
  {| page_content := "Lyon is a city of France."; metadata := ∅ |}.

Definition collaborators : Collaborators := {|
  World := unit;
  similarity_search := λ _ _ _ _ w, (Ok [paris; lyon], w);
  max_marginal_relevance_search := λ _ _ _ _ w, (Ok [lyon; paris], w);
  get_relevant_texts := λ _ _ w, (Ok [paris], w);
  llm_generate := λ _ text w, (Ok text, w);
  loaded_combine_docs := λ _ _ question w, (Ok (question, ∅), w, [])
|}.

Definition st0 : State (CO := collaborators) :=
  @Build_State collaborators tt [].

Definition the_llm : BaseLanguageModel := LanguageModelRef 0.
Definition the_store : VectorStore := VectorStoreRef 0.
Definition the_retriever : BaseRetriever := RetrieverRef 0.

Definition the_chain : BaseCombineDocumentsChain :=
  StuffDocumentsChain {| llm := the_llm; prompt := default_prompt |} "context"
    {| input_variables := ["page_content"];
       template := document_template |}.

Definition the_base : BaseRetrievalQA :=
  {| combine_documents_chain := the_chain; input_key := "query";
     output_key := "result"; return_source_documents := false |}.

(** A vector-store chain with the given mode, limit and extra
    search arguments. *)
Definition vector_db (mode : string) (k : Z) (kw : gmap string Atom) : VectorDBQA.t :=
  {| VectorDBQA.base := the_base; VectorDBQA.vectorstore := the_store;
     VectorDBQA.k := k; VectorDBQA.search_type := mode;
     VectorDBQA.search_kwargs := kw |}.

(** Keyword arguments that construct each class with its defaults. *)
Definition vector_kwargs : gmap string PyVal :=
  <["combine_documents_chain" := VChain the_chain]>
    {[ "vectorstore" := VVectorStore the_store ]}.

Definition retriever_kwargs : gmap string PyVal :=
  {[ "retriever" := VRetriever the_retriever ]}.

(** A retriever chain over a chain obtained from [load_qa_chain]. *)
Definition retrieval (output_key : string) (return_source_documents : bool)
  : RetrievalQA.t :=
  {| RetrievalQA.base :=
       {| combine_documents_chain := LoadedChain 0; input_key := "query";
          output_key := output_key;
          return_source_documents := return_source_documents |};
     RetrievalQA.retriever := the_retriever |}.

(** The same framework with a loader that knows three chain types. *)
Definition picky : Framework := {|
  str_validator := strict_str;
  int_validator := strict_int;
  bool_validator := strict_bool;
  dict_validator := strict_dict;
  str_validator_str := λ _, eq_refl;
  int_validator_int := λ _, eq_refl;
  bool_validator_bool := λ _, eq_refl;
  dict_validator_dict := λ _, eq_refl;
  chain_fields := Chain_fields;
  chain_validate := λ _, [];
  chain_fields_inherited :=
    bool_decide_unpack
      (Forall (λ f, f ∉ RetrievalQA_fields ++ VectorDBQA_fields) Chain_fields) I;
  LLMChain_validate := λ _ _, [];
  StuffDocumentsChain_validate := λ _ _ _, [];
  get_prompt := λ _, default_prompt;
  load_qa_chain := λ _ chain_type _,
    if bool_decide (chain_type ∈ ["stuff"; "map_reduce"; "refine"])
    then Ok (LoadedChain 0)
    else Raise (ValueError "Got unsupported chain type")
|}.

(** Collaborators that fail: only the retriever numbered 0 answers, and
    the language model is down. *)
Definition unreliable : Collaborators := {|
  World := unit;
  similarity_search := λ _ _ _ _ w, (Raise (OtherError "ConnectionError" "store down"), w);
  max_marginal_relevance_search :=
    λ _ _ _ _ w, (Raise (OtherError "ConnectionError" "store down"), w);
  get_relevant_texts := λ r _ w,
    match r with
    | RetrieverRef 0 => (Ok [paris], w)
    | _ => (Raise (OtherError "ConnectionError" "retriever down"), w)
    end;
  llm_generate := λ _ _ w, (Raise (OtherError "Timeout" "model down"), w);
  loaded_combine_docs := λ _ _ question w, (Ok (question, ∅), w, [])
|}.

(** Collaborators whose loaded chain asks the model about each document
    and then once more to reduce the answers. *)
Definition map_reduce : Collaborators := {|
  World := unit;
  similarity_search := λ _ _ _ _ w, (Ok [paris; lyon], w);
  max_marginal_relevance_search := λ _ _ _ _ w, (Ok [lyon; paris], w);
  get_relevant_texts := λ _ _ w, (Ok [paris], w);
  llm_generate := λ _ text w, (Ok text, w);
  loaded_combine_docs := λ _ docs question w,
    (Ok ("Paris", ∅), w,
     ((λ doc, (the_llm, page_content doc)) <$> docs) ++ [(the_llm, question)])
|}.

(** A vector-store chain over a chain obtained from [load_qa_chain]. *)
Definition mapped : VectorDBQA.t :=
  {| VectorDBQA.base :=
       {| combine_documents_chain := LoadedChain 1; input_key := "query";
          output_key := "result"; return_source_documents := false |};
     VectorDBQA.vectorstore := the_store; VectorDBQA.k := 4;
     VectorDBQA.search_type := "similarity"; VectorDBQA.search_kwargs := ∅ |}.

(** A retriever chain with the given retriever over the stuff chain. *)
Definition stuffed (r : BaseRetriever) : RetrievalQA.t :=
  {| RetrievalQA.base := the_base; RetrievalQA.retriever := r |}.

End Stub.

(** * Properties *)

(** Membership, equality and the like between concrete names. *)
Ltac by_decide :=
  match goal with
  | |- ?P => apply (bool_decide_unpack P); by vm_compute
  end.

(** ** The monad *)

Section monad_facts.
Context {CO : Collaborators}.

Lemma bind_Ok {A B} (m : M A) (f : A → M B) st a st' :
  m st = (Ok a, st') → (m ≫= f) st = f a st'.
Proof. intros Hm. unfold mbind, M_bind. by rewrite Hm. Qed.

Lemma bind_Raise {A B} (m : M A) (f : A → M B) st e st' :
  m st = (Raise e, st') → (m ≫= f) st = (Raise e, st').
Proof. intros Hm. unfold mbind, M_bind. by rewrite Hm. Qed.

Lemma bind_Ok_inv {A B} (m : M A) (f : A → M B) st b st' :
  (m ≫= f) st = (Ok b, st') →
  ∃ a st1, m st = (Ok a, st1) ∧ f a st1 = (Ok b, st').
Proof.
  unfold mbind, M_bind. destruct (m st) as [[a|e] st1]; [eauto | discriminate].
Qed.

Lemma lift_Ok_inv {A} (r : Res A) st a st' :
  lift r st = (Ok a, st') → r = Ok a ∧ st' = st.
Proof. unfold lift. by intros [= -> ->]. Qed.

Lemma invoke_spec {A} (c : Call) (impl : World → Res A * World) st :
  (invoke c impl st).1 = (impl (world st)).1
  ∧ world (invoke c impl st).2 = (impl (world st)).2
  ∧ trace (invoke c impl st).2 = trace st ++ [c].
Proof. unfold invoke. by destruct (impl (world st)). Qed.

Lemma trace_grows (c : Call) (l : list Call) : l ++ [c] ≠ l.
Proof.
  intros Heq. apply (f_equal length) in Heq.
  rewrite length_app in Heq. simpl in Heq. lia.
Qed.

End monad_facts.

(** ** Retrieval *)

Section retrieval.
Context {CO : Collaborators}.

(** The call [search(question, k=self.k, **self.search_kwargs)] when
    [search_kwargs] has no entry named [k]: the method is entered once
    and its outcome is the outcome of the call. *)
Lemma search_spec event method (self : VectorDBQA.t) question st :
  VectorDBQA.search_kwargs self !! "k" = None →
  let vs := VectorDBQA.vectorstore self in
  let k := VectorDBQA.k self in
  let kw := VectorDBQA.search_kwargs self in
  let out := VectorDBQA.search event method self question st in
  out.1 = (method vs question k kw (world st)).1
  ∧ world out.2 = (method vs question k kw (world st)).2
  ∧ trace out.2 = trace st ++ [event vs question k kw].
Proof.
  intros Hk. cbn zeta. unfold VectorDBQA.search, keyword_and_star.
  rewrite Hk. unfold mbind, M_bind, lift. apply invoke_spec.
Qed.

(** When [search_kwargs] has an entry named [k], the call expression
    raises before the method is entered. *)
Lemma search_repeated_k event method (self : VectorDBQA.t) question st :
  is_Some (VectorDBQA.search_kwargs self !! "k") →
  VectorDBQA.search event method self question st = (Raise (multiple_values "k"), st).
Proof.
  intros [a Ha]. unfold VectorDBQA.search, keyword_and_star.
  by rewrite Ha.
Qed.

End retrieval.

Section retrieval_claims.
Context {CO : Collaborators}.

(** C1 (amended).  For every question and every [VectorDBQA] whose
    [search_kwargs] has no entry named [k]: with [search_type]
    [similarity], [_get_docs] enters [similarity_search] exactly once,
    with the question, [k] and [search_kwargs], and with [search_type]
    [mmr] it enters [max_marginal_relevance_search] exactly once with
    the same arguments; in both cases the outcome of [_get_docs] is the
    outcome of that call: the documents as the vector store returned
    them, in its order. *)
Theorem C1_search_type_selects_the_search (self : VectorDBQA.t) (question : string)
    (st : State) :
  VectorDBQA.search_kwargs self !! "k" = None →
  let vs := VectorDBQA.vectorstore self in
  let k := VectorDBQA.k self in
  let kw := VectorDBQA.search_kwargs self in
  let out := _get_docs (VectorDBQA_self self) question st in
  (VectorDBQA.search_type self = "similarity" →
     out.1 = (similarity_search vs question k kw (world st)).1
     ∧ world out.2 = (similarity_search vs question k kw (world st)).2
     ∧ trace out.2 = trace st ++ [Call_similarity_search vs question k kw])
  ∧ (VectorDBQA.search_type self = "mmr" →
     out.1 = (max_marginal_relevance_search vs question k kw (world st)).1
     ∧ world out.2 = (max_marginal_relevance_search vs question k kw (world st)).2
     ∧ trace out.2 = trace st ++ [Call_max_marginal_relevance_search vs question k kw]).
Proof.
  intros Hk. cbn zeta. unfold _get_docs, VectorDBQA._get_docs. split; intros Hmode.
  - rewrite bool_decide_eq_true_2 by done.
    by apply (search_spec Call_similarity_search similarity_search).
  - rewrite bool_decide_eq_false_2 by (by rewrite Hmode).
    rewrite bool_decide_eq_true_2 by done.
    by apply (search_spec Call_max_marginal_relevance_search
                max_marginal_relevance_search).
Qed.

(** C4.  For every question, [_get_docs] of a [RetrievalQA] enters the
    retriever's [get_relevant_texts] exactly once, whatever the
    configuration, passing the question and nothing else, and its
    outcome is the outcome of that call, unchanged. *)
Theorem C4_retriever_is_asked_directly (self : RetrievalQA.t) (question : string)
    (st : State) :
  let r := RetrievalQA.retriever self in
  let out := _get_docs (RetrievalQA_self self) question st in
  out.1 = (get_relevant_texts r question (world st)).1
  ∧ world out.2 = (get_relevant_texts r question (world st)).2
  ∧ trace out.2 = trace st ++ [Call_get_relevant_texts r question].
Proof. cbn zeta. unfold _get_docs, RetrievalQA._get_docs. apply invoke_spec. Qed.

(** C7.  At call time, [_get_docs] of a [VectorDBQA] raises the
    [ValueError] whose message is [search_type of <mode> not allowed.],
    with the offending mode in it and without entering the vector
    store, exactly when [search_type] is neither [similarity] nor
    [mmr]; with either recognised value this does not happen. *)
Theorem C7_unrecognised_search_type_raises (self : VectorDBQA.t) (question : string)
    (st : State) :
  VectorDBQA._get_docs self question st
    = (Raise (ValueError
                ("search_type of " +:+ VectorDBQA.search_type self +:+ " not allowed.")),
       st)
  ↔ VectorDBQA.search_type self ∉ ["similarity"; "mmr"].
Proof.
  unfold VectorDBQA._get_docs.
  assert (Hsearch : ∀ event method,
    VectorDBQA.search event method self question st
      ≠ (Raise (ValueError
                  ("search_type of " +:+ VectorDBQA.search_type self +:+ " not allowed.")),
         st)).
  { intros event method Heq.
    destruct (VectorDBQA.search_kwargs self !! "k") as [a|] eqn:Hk.
    - rewrite search_repeated_k in Heq by (rewrite Hk; eauto). discriminate Heq.
    - destruct (search_spec event method self question st Hk) as (_ & _ & Htrace).
      rewrite Heq in Htrace. simpl in Htrace. symmetry in Htrace.
      by apply trace_grows in Htrace. }
  case_bool_decide as Hsim.
  { split; [intros Heq; by apply Hsearch in Heq|].
    intros Hnot. exfalso. apply Hnot. rewrite Hsim. apply elem_of_cons. by left. }
  case_bool_decide as Hmmr.
  { split; [intros Heq; by apply Hsearch in Heq|].
    intros Hnot. exfalso. apply Hnot. rewrite Hmmr.
    apply elem_of_cons. right. apply elem_of_cons. by left. }
  split; [|done]. intros _ Hin.
  apply elem_of_cons in Hin as [Hin|Hin]; [done|].
  apply elem_of_cons in Hin as [Hin|Hin]; [done|].
  by apply elem_of_nil in Hin.
Qed.

End retrieval_claims.

(** A check of C1 on the stub vector store, in both modes. *)
Lemma C1_search_type_selects_the_search_witness :
  let kw : gmap string Atom := {[ "filter" := AStr "europe" ]} in
  let sim := _get_docs (CO := Stub.collaborators)
               (VectorDBQA_self (Stub.vector_db "similarity" 4 kw)) "capital?" Stub.st0 in
  let mmr := _get_docs (CO := Stub.collaborators)
               (VectorDBQA_self (Stub.vector_db "mmr" 4 kw)) "capital?" Stub.st0 in
  kw !! "k" = None
  ∧ (sim.1 = Ok [Stub.paris; Stub.lyon]
     ∧ trace sim.2 = [Call_similarity_search Stub.the_store "capital?" 4 kw])
  ∧ (mmr.1 = Ok [Stub.lyon; Stub.paris]
     ∧ trace mmr.2 = [Call_max_marginal_relevance_search Stub.the_store "capital?" 4 kw]).
Proof.
  intros kw sim mmr.
  assert (Hk : kw !! "k" = None) by reflexivity.
  split; [exact Hk|]. split.
  - destruct (C1_search_type_selects_the_search (CO := Stub.collaborators)
                (Stub.vector_db "similarity" 4 kw) "capital?" Stub.st0 Hk) as [Hsim _].
    destruct (Hsim eq_refl) as (Hout & _ & Htrace). split; [exact Hout | exact Htrace].
  - destruct (C1_search_type_selects_the_search (CO := Stub.collaborators)
                (Stub.vector_db "mmr" 4 kw) "capital?" Stub.st0 Hk) as [_ Hmmr].
    destruct (Hmmr eq_refl) as (Hout & _ & Htrace). split; [exact Hout | exact Htrace].
Defined.

(** C1 as stated fails when [search_kwargs] repeats the keyword [k]: the
    mode is [similarity], yet the call expression raises [TypeError], the
    vector store is never entered and no documents are returned. *)
Lemma C1_repeated_k_counterexample :
  let self := Stub.vector_db "similarity" 4 {[ "k" := AInt 10 ]} in
  VectorDBQA.search_type self = "similarity"
  ∧ _get_docs (CO := Stub.collaborators) (VectorDBQA_self self) "capital?" Stub.st0
    = (Raise (TypeError "got multiple values for keyword argument 'k'"), Stub.st0).
Proof. split; reflexivity. Qed.

(** A check of C7 on a chain whose mode was set to [bogus]. *)
Lemma C7_unrecognised_search_type_raises_witness :
  VectorDBQA._get_docs (CO := Stub.collaborators) (Stub.vector_db "bogus" 4 ∅)
    "capital?" Stub.st0
  = (Raise (ValueError "search_type of bogus not allowed."), Stub.st0).
Proof.
  apply (C7_unrecognised_search_type_raises (CO := Stub.collaborators)
           (Stub.vector_db "bogus" 4 ∅) "capital?" Stub.st0).
  simpl. intros Hin.
  repeat (apply elem_of_cons in Hin as [Hin|Hin]; [discriminate Hin|]).
  by apply elem_of_nil in Hin.
Defined.

(** ** The call *)

Section call.
Context {CO : Collaborators}.

(** A call that completes has read the question, retrieved documents
    and combined them, in that order, and has built its result from the
    answer and the documents. *)
Lemma call_Ok_inv (self : Self) (inputs : gmap string string) st result st' :
  _call self inputs st = (Ok result, st') →
  ∃ question docs st1 answer aux,
    inputs !! input_key self = Some question
    ∧ _get_docs self question st = (Ok docs, st1)
    ∧ combine_docs (combine_documents_chain self) docs question st1
      = (Ok (answer, aux), st')
    ∧ result =
        if return_source_documents self
        then <["source_documents" := OutDocs docs]> {[ output_key self := OutStr answer ]}
        else {[ output_key self := OutStr answer ]}.
Proof.
  unfold _call. intros Hcall.
  apply bind_Ok_inv in Hcall as (question & st0 & Hq & Hcall).
  apply lift_Ok_inv in Hq as [Hq ->].
  unfold getitem in Hq. destruct (inputs !! input_key self) as [q|] eqn:Hin; [|done].
  injection Hq as ->.
  apply bind_Ok_inv in Hcall as (docs & st1 & Hdocs & Hcall).
  apply bind_Ok_inv in Hcall as ([answer aux] & st2 & Hcomb & Hcall).
  exists question, docs, st1, answer, aux.
  split; [done|]. split; [done|].
  destruct (return_source_documents self); injection Hcall as <- <-; done.
Qed.

Lemma dom_result (key : string) (answer : string) (docs : list Document) :
  dom (<["source_documents" := OutDocs docs]> ({[ key := OutStr answer ]} : gmap string Output))
  = ({[ key; "source_documents" ]} : gset string).
Proof. rewrite dom_insert_L, dom_singleton_L. apply (comm_L (∪)). Qed.

Lemma size_result (key : string) (answer : string) (docs : list Document) :
  size (<["source_documents" := OutDocs docs]> ({[ key := OutStr answer ]} : gmap string Output))
  = if decide (key = "source_documents") then 1%nat else 2%nat.
Proof.
  destruct (decide (key = "source_documents")) as [->|Hne].
  - by rewrite insert_singleton_eq, map_size_singleton.
  - rewrite map_size_insert_None by (by apply lookup_singleton_ne).
    by rewrite map_size_singleton.
Qed.

(** C5.  For every call whose inputs lack the input key, the call raises
    [KeyError] on that key and leaves the collaborators as they were:
    nothing was retrieved and nothing was combined. *)
Theorem C5_missing_input_key_raises_first (self : Self) (inputs : gmap string string)
    (st : State) :
  inputs !! input_key self = None →
  _call self inputs st = (Raise (KeyError (input_key self)), st).
Proof.
  intros Hin. unfold _call. apply bind_Raise.
  unfold lift, getitem. by rewrite Hin.
Qed.

(** C9.  For every instance and every call that completes, the set of
    keys of the result is the set of the declared [output_keys], which
    are the output key alone without [return_source_documents] and the
    output key followed by [source_documents] with it. *)
Theorem C9_result_keys_are_output_keys (self : Self) (inputs : gmap string string)
    (st : State) (result : gmap string Output) (st' : State) :
  _call self inputs st = (Ok result, st') →
  dom result = list_to_set (output_keys self)
  ∧ output_keys self =
      if return_source_documents self
      then [output_key self; "source_documents"]
      else [output_key self].
Proof.
  intros Hcall.
  apply call_Ok_inv in Hcall as (question & docs & st1 & answer & aux & _ & _ & _ & ->).
  unfold output_keys. destruct (return_source_documents self); simpl.
  - split; [|done]. rewrite dom_result. by rewrite (right_id_L ∅ (∪)).
  - split; [|done]. rewrite dom_singleton_L. by rewrite (right_id_L ∅ (∪)).
Qed.

End call.

(** C2.  The code at the input that breaks the claim: a retriever chain
    whose output key is [source_documents] and which returns the
    documents.  The call completes, and its result has the single key
    [source_documents], which holds the documents: in the dictionary
    [{self.output_key: answer, "source_documents": docs}] the entry of
    the answer is replaced by the second one, and no answer is returned,
    where the documentation of [_call] has the documents returned as
    well as the answer. *)
Theorem C2_answer_is_replaced_when_the_keys_collide :
  let self := RetrievalQA_self (Stub.retrieval "source_documents" true) in
  let out := _call (CO := Stub.collaborators) self {[ "query" := "capital?" ]} Stub.st0 in
  let result : gmap string Output := {[ "source_documents" := OutDocs [Stub.paris] ]} in
  return_source_documents self = true
  ∧ out.1 = Ok result
  ∧ size result = 1%nat
  ∧ ∀ answer, result !! output_key self ≠ Some (OutStr answer).
Proof.
  split; [reflexivity|]. split; [by vm_compute|].
  split; [apply map_size_singleton|].
  intros answer. simpl. by rewrite lookup_singleton_eq.
Qed.

(** A check of C5: no [query] among the inputs. *)
Lemma C5_missing_input_key_raises_first_witness :
  _call (CO := Stub.collaborators) (RetrievalQA_self (Stub.retrieval "result" true))
    {[ "question" := "capital?" ]} Stub.st0
  = (Raise (KeyError "query"), Stub.st0).
Proof.
  apply (C5_missing_input_key_raises_first (CO := Stub.collaborators)
           (RetrievalQA_self (Stub.retrieval "result" true))).
  reflexivity.
Defined.

(** A check of C9 when the output key is [source_documents] too. *)
Lemma C9_result_keys_are_output_keys_witness :
  let self := RetrievalQA_self (Stub.retrieval "source_documents" true) in
  let result : gmap string Output := {[ "source_documents" := OutDocs [Stub.paris] ]} in
  (_call (CO := Stub.collaborators) self {[ "query" := "capital?" ]} Stub.st0).1 = Ok result
  ∧ dom result = list_to_set (output_keys self)
  ∧ output_keys self = ["source_documents"; "source_documents"].
Proof.
  intros self result.
  assert (Hrun : ∃ st', _call (CO := Stub.collaborators) self
                          {[ "query" := "capital?" ]} Stub.st0 = (Ok result, st')).
  { eexists. vm_compute. reflexivity. }
  destruct Hrun as [st' Hrun].
  split; [by rewrite Hrun|].
  exact (C9_result_keys_are_output_keys (CO := Stub.collaborators) _ _ _ _ _ Hrun).
Defined.

(** ** Construction *)

Section pydantic_facts.
Context {FW : Framework}.

Lemma validated_Ok_inv {T} (errors : Errors) (object : option T) (self : T) :
  validated errors object = Ok self → errors = [] ∧ object = Some self.
Proof. unfold validated. destruct errors, object; naive_solver. Qed.

Lemma validated_Raise {T} (errors : Errors) (object : option T) :
  errors ≠ [] → validated errors object = Raise (ValidationError errors).
Proof. unfold validated. by destruct errors, object. Qed.

Lemma validate_field_cases {A} input name (validator : PyVal → Validated A) default :
  (∃ a, validate_field input name validator default = (Some a, []))
  ∨ (∃ e, validate_field input name validator default = (None, [e])).
Proof.
  unfold validate_field. destruct (input !! name) as [v|].
  - destruct (validator v); eauto.
  - destruct default; eauto.
Qed.

Lemma validate_field_insert_ne {A} input f v name (validator : PyVal → Validated A)
    default :
  f ≠ name →
  validate_field (<[f := v]> input) name validator default
  = validate_field input name validator default.
Proof. intros Hne. unfold validate_field. by rewrite lookup_insert_ne. Qed.

Lemma validate_field_insert_valid {A} input f v (validator : PyVal → Validated A)
    default a :
  validator v = Valid a →
  validate_field (<[f := v]> input) f validator default = (Some a, []).
Proof. intros Hv. unfold validate_field. by rewrite lookup_insert_eq, Hv. Qed.

Lemma validate_field_default {A} input name (validator : PyVal → Validated A) d :
  input !! name = None →
  validate_field input name validator (Some d) = (Some d, []).
Proof. intros Hin. unfold validate_field. by rewrite Hin. Qed.

Lemma validate_base_fields_insert input f v :
  f ∉ base_fields →
  validate_base_fields (<[f := v]> input) = validate_base_fields input.
Proof.
  intros Hf. unfold validate_base_fields.
  rewrite !validate_field_insert_ne; [done|..];
    intros ->; apply Hf; by_decide.
Qed.

Lemma chain_errors_insert input f v :
  f ∉ chain_fields → chain_errors (<[f := v]> input) = chain_errors input.
Proof.
  intros Hf. unfold chain_errors. by rewrite map_filter_insert_not.
Qed.

Lemma extra_errors_insert fields input f v :
  f ∈ fields → extra_errors fields (<[f := v]> input) = extra_errors fields input.
Proof.
  intros Hf. unfold extra_errors.
  rewrite map_filter_insert_not; [done|]. intros y Hy. by apply Hy.
Qed.

Lemma extra_errors_elem fields (input : gmap string PyVal) f :
  is_Some (input !! f) → f ∉ fields →
  (f, "extra fields not permitted") ∈ extra_errors fields input.
Proof.
  intros [v Hv] Hf. unfold extra_errors.
  apply (list_elem_of_fmap_2 (λ f, (f, "extra fields not permitted"))).
  rewrite merge_sort_Permutation. apply elem_of_elements, elem_of_dom.
  exists v. by apply map_lookup_filter_Some.
Qed.

Lemma module_field_not_inherited f :
  f ∈ RetrievalQA_fields ++ VectorDBQA_fields → f ∉ chain_fields.
Proof.
  intros Hf Hc. by apply (proj1 (Forall_forall _ _) chain_fields_inherited) in Hc.
Qed.

End pydantic_facts.

Section VectorDBQA_construction.
Context {FW : Framework}.

Lemma run_validate_search_type (values : VectorDBQA.Values) (errors : Errors) :
  run_root_validator VectorDBQA.validate_search_type values errors
  = Ok (values, errors ++ VectorDBQA.search_type_errors values).
Proof.
  unfold run_root_validator, VectorDBQA.validate_search_type,
    VectorDBQA.search_type_errors.
  destruct (VectorDBQA.values_search_type values) as [s|]; [|by rewrite app_nil_r].
  case_bool_decide; [done | by rewrite app_nil_r].
Qed.

(** The constructor succeeds exactly when nothing reports an error, and
    the instance then holds the validated fields. *)
Lemma VectorDBQA_init_Ok (kwargs : gmap string PyVal) (self : VectorDBQA.t) :
  VectorDBQA.init kwargs = Ok self ↔
    chain_errors kwargs = []
    ∧ extra_errors (chain_fields ++ VectorDBQA_fields) kwargs = []
    ∧ (∃ b, validate_base_fields kwargs = (b, [])
            ∧ complete_base b = Some (VectorDBQA.base self))
    ∧ validate_field kwargs "vectorstore" vectorstore_validator None
      = (Some (VectorDBQA.vectorstore self), [])
    ∧ validate_field kwargs "k" int_validator (Some 4)
      = (Some (VectorDBQA.k self), [])
    ∧ validate_field kwargs "search_type" str_validator (Some "similarity")
      = (Some (VectorDBQA.search_type self), [])
    ∧ validate_field kwargs "search_kwargs" dict_validator (Some ∅)
      = (Some (VectorDBQA.search_kwargs self), [])
    ∧ VectorDBQA.search_type self ∈ ["similarity"; "mmr"].
Proof.
  unfold VectorDBQA.init, VectorDBQA.validate_fields.
  destruct (validate_base_fields kwargs) as [b e0].
  destruct (validate_field kwargs "vectorstore" _ _) as [vs e1] eqn:Hvs.
  destruct (validate_field kwargs "k" _ _) as [k e2] eqn:Hk.
  destruct (validate_field kwargs "search_type" _ _) as [mode e3] eqn:Hmode.
  destruct (validate_field kwargs "search_kwargs" _ _) as [kw e4] eqn:Hkw.
  rewrite run_validate_search_type. unfold mbind, Res_bind, VectorDBQA.search_type_errors. simpl.
  split.
  - intros [Herr Hself]%validated_Ok_inv.
    apply app_eq_nil in Herr as [Herr Hroot].
    apply app_eq_nil in Herr as [Hchain Herr].
    apply app_eq_nil in Herr as [Herr Hextra].
    apply app_eq_nil in Herr as [-> Herr].
    apply app_eq_nil in Herr as [-> Herr].
    apply app_eq_nil in Herr as [-> Herr].
    apply app_eq_nil in Herr as [-> ->].
    unfold VectorDBQA.complete in Hself. simpl in Hself.
    destruct (complete_base b) as [b'|] eqn:Hb; [|done].
    destruct vs as [vs|]; [|done]. destruct k as [k|]; [|done].
    destruct mode as [mode|]; [|done]. destruct kw as [kw|]; [|done].
    simpl in Hself. injection Hself as <-. simpl.
    repeat (split; [by eauto|]).
    destruct (decide (mode ∈ ["similarity"; "mmr"])) as [Hin|Hin]; [done|].
    by rewrite bool_decide_eq_true_2 in Hroot.
  - intros (Hchain & Hextra & (b' & [= -> ->] & Hb) & [= -> ->] & [= -> ->]
            & [= -> ->] & [= -> ->] & Hin).
    rewrite Hchain, Hextra. simpl.
    rewrite bool_decide_eq_false_2 by (by intros Hnot).
    unfold VectorDBQA.complete. simpl. rewrite Hb. simpl. by destruct self.
Qed.

End VectorDBQA_construction.

Section VectorDBQA_claims.
Context {FW : Framework} {CO : Collaborators}.

(** An instance that the constructor returned has a recognised mode. *)
Lemma VectorDBQA_init_search_type (kwargs : gmap string PyVal) (self : VectorDBQA.t) :
  VectorDBQA.init kwargs = Ok self →
  VectorDBQA.search_type self ∈ ["similarity"; "mmr"].
Proof. intros Hinit. by apply VectorDBQA_init_Ok in Hinit as (_&_&_&_&_&_&_&?). Qed.

(** Whatever is passed as [search_type], the constructor raises unless
    it validates to one of the two recognised strings. *)
Lemma VectorDBQA_init_unrecognised (kwargs : gmap string PyVal) (v : PyVal) :
  kwargs !! "search_type" = Some v →
  str_validator v ≠ Valid "similarity" → str_validator v ≠ Valid "mmr" →
  ∃ errors, VectorDBQA.init kwargs = Raise (ValidationError errors).
Proof.
  intros Hv Hsim Hmmr.
  destruct (VectorDBQA.init kwargs) as [self|e] eqn:Hinit.
  - exfalso. apply VectorDBQA_init_Ok in Hinit as (_&_&_&_&_& Hmode &_& Hin).
    unfold validate_field in Hmode. rewrite Hv in Hmode.
    destruct (str_validator v) as [s|msg]; [|done].
    injection Hmode as Hs. rewrite <- Hs in Hin.
    apply elem_of_cons in Hin as [Hin|Hin]; [by rewrite Hin in Hsim|].
    apply elem_of_cons in Hin as [Hin|Hin]; [by rewrite Hin in Hmmr|].
    by apply elem_of_nil in Hin.
  - revert Hinit. unfold VectorDBQA.init.
    destruct (VectorDBQA.validate_fields kwargs) as [values errors].
    rewrite run_validate_search_type. unfold mbind, Res_bind, validated.
    intros Hinit. repeat case_match; simplify_eq; eauto.
Qed.

(** C3.  Constructing a [VectorDBQA] with a [search_type] string that is
    neither [similarity] nor [mmr] raises pydantic's [ValidationError],
    one of whose entries is the root validator's
    [search_type of <mode> not allowed.]; the constructor returns no
    instance, so that no [_get_docs] call can follow.  With either
    recognised string the construction succeeds wherever it succeeds at
    all: the field takes the value and nothing else changes. *)
Theorem C3_search_type_is_validated_by_the_constructor (kwargs : gmap string PyVal) :
  (∀ mode : string,
     kwargs !! "search_type" = Some (VStr mode) →
     mode ∉ ["similarity"; "mmr"] →
     ∃ errors,
       VectorDBQA.init kwargs = Raise (ValidationError errors)
       ∧ ("__root__", "search_type of " +:+ mode +:+ " not allowed.") ∈ errors)
  ∧ (∀ (mode : string) (self : VectorDBQA.t),
       mode ∈ ["similarity"; "mmr"] →
       VectorDBQA.init kwargs = Ok self →
       VectorDBQA.init (<["search_type" := VStr mode]> kwargs)
       = Ok (VectorDBQA.set_search_type mode self)).
Proof.
  split.
  - intros mode Hmode Hnot. unfold VectorDBQA.init, VectorDBQA.validate_fields.
    destruct (validate_base_fields kwargs) as [b e0].
    destruct (validate_field kwargs "vectorstore" _ _) as [vs e1].
    destruct (validate_field kwargs "k" _ _) as [k e2].
    assert (Hfield : validate_field kwargs "search_type" str_validator
                       (Some "similarity") = (Some mode, [])).
    { unfold validate_field. by rewrite Hmode, str_validator_str. }
    rewrite Hfield.
    destruct (validate_field kwargs "search_kwargs" _ _) as [kw e4].
    rewrite run_validate_search_type. unfold mbind, Res_bind, VectorDBQA.search_type_errors.
    simpl. rewrite bool_decide_eq_true_2 by done.
    eexists. split.
    + apply validated_Raise. intros Hnil. by apply app_eq_nil in Hnil as [_ ?].
    + apply elem_of_app. right. apply list_elem_of_here.
  - intros mode self Hin Hinit.
    apply VectorDBQA_init_Ok in Hinit
      as (Hchain & Hextra & (b & Hbase & Hb) & Hvs & Hk & _ & Hkw & _).
    apply VectorDBQA_init_Ok. simpl.
    assert (Hfield : "search_type" ∈ RetrievalQA_fields ++ VectorDBQA_fields)
      by by_decide.
    rewrite chain_errors_insert by (by apply module_field_not_inherited).
    rewrite extra_errors_insert
      by (apply elem_of_app; right; by_decide).
    rewrite validate_base_fields_insert by by_decide.
    rewrite (validate_field_insert_valid _ _ _ _ _ mode) by apply str_validator_str.
    rewrite !validate_field_insert_ne by done.
    eauto 10.
Qed.


End VectorDBQA_claims.

(** A check of C3: [bogus] is refused, [mmr] is accepted. *)
Lemma C3_search_type_is_validated_by_the_constructor_witness :
  (∃ errors,
     VectorDBQA.init (FW := Stub.framework)
       (<["search_type" := VStr "bogus"]> Stub.vector_kwargs)
     = Raise (ValidationError errors)
     ∧ ("__root__", "search_type of bogus not allowed.") ∈ errors)
  ∧ VectorDBQA.init (FW := Stub.framework)
      (<["search_type" := VStr "mmr"]> Stub.vector_kwargs)
    = Ok (Stub.vector_db "mmr" 4 ∅).
Proof.
  split.
  - apply (proj1 (C3_search_type_is_validated_by_the_constructor
                    (FW := Stub.framework)
                    (<["search_type" := VStr "bogus"]> Stub.vector_kwargs)) "bogus").
    + reflexivity.
    + by_decide.
  - apply (proj2 (C3_search_type_is_validated_by_the_constructor
                    (FW := Stub.framework) Stub.vector_kwargs)
             "mmr" (Stub.vector_db "similarity" 4 ∅)).
    + by_decide.
    + vm_compute. reflexivity.
Defined.



(** ** The classmethods *)

Section classmethods.
Context {FW : Framework}.

Lemma keyword_and_star_fresh {V} (name : string) (v : V) (star : gmap string V) :
  star !! name = None → keyword_and_star name v star = Ok (<[name := v]> star).
Proof. intros Hnone. unfold keyword_and_star. by rewrite Hnone. Qed.

Lemma elem_of_not_nil {A} (x : A) (l : list A) : x ∈ l → l ≠ [].
Proof. intros Hin ->. by apply elem_of_nil in Hin. Qed.

(** The constructor of either class reports every name that is not a
    field. *)
Lemma instantiate_unknown_field (c : cls) (kwargs : gmap string PyVal) (f : string) :
  is_Some (kwargs !! f) →
  f ∉ chain_fields ++ fields_of c →
  ∃ errors,
    instantiate c kwargs = Raise (ValidationError errors)
    ∧ (f, "extra fields not permitted") ∈ errors.
Proof.
  intros Hsome Hf. pose proof (extra_errors_elem _ _ _ Hsome Hf) as Hextra.
  destruct c; simpl in Hextra; unfold instantiate.
  - unfold RetrievalQA.init.
    destruct (RetrievalQA.validate_fields kwargs) as [values errors].
    eexists. split.
    + rewrite validated_Raise; [done|].
      apply (elem_of_not_nil (f, "extra fields not permitted")).
      rewrite !elem_of_app. auto.
    + rewrite !elem_of_app. auto.
  - unfold VectorDBQA.init.
    destruct (VectorDBQA.validate_fields kwargs) as [values errors].
    rewrite run_validate_search_type. unfold mbind, Res_bind.
    eexists. split.
    + rewrite validated_Raise; [done|].
      apply (elem_of_not_nil (f, "extra fields not permitted")).
      rewrite !elem_of_app. auto.
    + rewrite !elem_of_app. auto.
Qed.

Lemma validated_cases {T} (errors : Errors) (object : T) :
  validated errors (Some object) = Ok object
  ∨ validated errors (Some object) = Raise (ValidationError errors).
Proof. destruct errors; auto. Qed.

(** C6 (amended).  Let [kwargs] hold a name that is neither a field of
    the concrete class nor one inherited from [Chain].  The constructor
    of the class raises [ValidationError] with the entry
    [extra fields not permitted] for that name, and neither [from_llm]
    nor [from_chain_type] returns an instance.  When [kwargs] does not
    itself hold [combine_documents_chain], [from_llm] raises a
    [ValidationError], and so does [from_chain_type], with that entry,
    once [load_qa_chain] has returned a chain. *)
Theorem C6_unknown_field_is_rejected (c : cls) (llm : BaseLanguageModel)
    (prompt : option PromptTemplate) (chain_type : option string)
    (chain_type_kwargs : option (gmap string PyVal))
    (kwargs : gmap string PyVal) (f : string) :
  is_Some (kwargs !! f) →
  f ∉ chain_fields ++ fields_of c →
  (∃ errors,
     instantiate c kwargs = Raise (ValidationError errors)
     ∧ (f, "extra fields not permitted") ∈ errors)
  ∧ ¬ is_Ok (from_llm c llm prompt kwargs)
  ∧ ¬ is_Ok (from_chain_type c llm chain_type chain_type_kwargs kwargs)
  ∧ (kwargs !! "combine_documents_chain" = None →
     (∃ errors, from_llm c llm prompt kwargs = Raise (ValidationError errors))
     ∧ (default ∅ chain_type_kwargs !! "chain_type" = None →
        is_Ok (load_qa_chain llm (default "stuff" chain_type)
                 (default ∅ chain_type_kwargs)) →
        ∃ errors,
          from_chain_type c llm chain_type chain_type_kwargs kwargs
          = Raise (ValidationError errors)
          ∧ (f, "extra fields not permitted") ∈ errors)).
Proof.
  intros Hsome Hf.
  assert (Hcall : ∀ chain,
    kwargs !! "combine_documents_chain" = None →
    ∃ errors,
      (keyword_and_star "combine_documents_chain" (VChain chain) kwargs
         ≫= instantiate c) = Raise (ValidationError errors)
      ∧ (f, "extra fields not permitted") ∈ errors).
  { intros chain Hnone. unfold keyword_and_star. rewrite Hnone.
    apply instantiate_unknown_field; [|done].
    destruct (decide (f = "combine_documents_chain")) as [->|Hne].
    - rewrite lookup_insert_eq. eauto.
    - by rewrite lookup_insert_ne. }
  assert (Hnever : ∀ chain,
    ¬ is_Ok (keyword_and_star "combine_documents_chain" (VChain chain) kwargs
               ≫= instantiate c)).
  { intros chain. destruct (kwargs !! "combine_documents_chain") as [v|] eqn:Hc.
    - unfold keyword_and_star. rewrite Hc. simpl. tauto.
    - destruct (Hcall chain eq_refl) as (errors & -> & _). simpl. tauto. }
  split; [by apply instantiate_unknown_field|].
  split; [|split].
  - unfold from_llm.
    destruct (validated_cases (LLMChain_validate llm
                (match prompt with Some p => p | None => get_prompt llm end))
                {| llm := llm;
                   prompt := match prompt with Some p => p | None => get_prompt llm end |})
      as [-> | ->]; [|simpl; tauto]. cbn [mbind Res_bind].
    match goal with
    | |- context [validated ?es (Some ?o)] =>
        destruct (validated_cases es o) as [-> | ->]; [|simpl; tauto]
    end.
    apply Hnever.
  - unfold from_chain_type.
    destruct (keyword_and_star "chain_type" _ _); [|simpl; tauto]. cbn [mbind Res_bind].
    destruct (load_qa_chain _ _ _) as [chain|e]; [|simpl; tauto].
    apply Hnever.
  - intros Hnone. split.
    + unfold from_llm.
      destruct (validated_cases (LLMChain_validate llm
                  (match prompt with Some p => p | None => get_prompt llm end))
                  {| llm := llm;
                     prompt := match prompt with Some p => p | None => get_prompt llm end |})
        as [-> | ->]; [|simpl; eauto]. cbn [mbind Res_bind].
      match goal with
      | |- context [validated ?es (Some ?o)] =>
          destruct (validated_cases es o) as [-> | ->]; [|simpl; eauto]
      end.
      destruct (Hcall (StuffDocumentsChain
                         {| llm := llm;
                            prompt := match prompt with
                                      | Some p => p
                                      | None => get_prompt llm
                                      end |} "context"
                         {| input_variables := ["page_content"];
                            template := document_template |}) Hnone)
        as (errors & Herr & _).
      eauto.
    + intros Hfree Hloaded. unfold from_chain_type.
      destruct chain_type as [t|], chain_type_kwargs as [d|];
        cbn [from_option id] in Hfree, Hloaded;
        rewrite (keyword_and_star_fresh "chain_type") by done; cbn [mbind Res_bind];
        destruct (load_qa_chain _ _ _) as [chain|e]; try done;
        apply (Hcall chain Hnone).
Qed.

End classmethods.

(** A check of C6 on [RetrievalQA] with a keyword [bogus]. *)
Lemma C6_unknown_field_is_rejected_witness :
  let kwargs : gmap string PyVal := <["bogus" := VInt 1]> Stub.retriever_kwargs in
  (∃ errors,
     from_llm (FW := Stub.framework) RetrievalQA_cls Stub.the_llm None kwargs
     = Raise (ValidationError errors))
  ∧ (∃ errors,
       from_chain_type (FW := Stub.framework) RetrievalQA_cls Stub.the_llm None None kwargs
       = Raise (ValidationError errors)
       ∧ ("bogus", "extra fields not permitted") ∈ errors).
Proof.
  intros kwargs.
  assert (Hsome : is_Some (kwargs !! "bogus")) by (by exists (VInt 1)).
  assert (Hf : "bogus" ∉ (@chain_fields Stub.framework ++ fields_of RetrievalQA_cls))
    by by_decide.
  destruct (C6_unknown_field_is_rejected (FW := Stub.framework) RetrievalQA_cls
              Stub.the_llm None None None kwargs "bogus" Hsome Hf)
    as (_ & _ & _ & Hraise).
  destruct (Hraise eq_refl) as [Hllm Hchain].
  split; [exact Hllm|]. exact (Hchain eq_refl I).
Defined.

(** C6 as stated fails when the extra configuration repeats
    [combine_documents_chain] next to the unknown name: the call of the
    constructor raises [TypeError], not pydantic's [ValidationError]. *)
Lemma C6_repeated_keyword_counterexample :
  let kwargs : gmap string PyVal :=
    <["bogus" := VInt 1]>
      (<["combine_documents_chain" := VChain Stub.the_chain]> Stub.retriever_kwargs) in
  is_Some (kwargs !! "bogus")
  ∧ ("bogus" ∉ @chain_fields Stub.framework ++ fields_of RetrievalQA_cls)
  ∧ from_llm (FW := Stub.framework) RetrievalQA_cls Stub.the_llm None kwargs
    = Raise (TypeError
               "got multiple values for keyword argument 'combine_documents_chain'").
Proof.
  intros kwargs. split; [by exists (VInt 1)|]. split; [by_decide|].
  vm_compute. reflexivity.
Qed.

(** ** The grounding context *)

Section context.
Context {FW : Framework} {CO : Collaborators}.

Lemma append_empty_r (s : string) : s +:+ "" = s.
Proof.
  induction s as [|c s IH]; [done|].
  change (String c (s +:+ "") = String c s). by rewrite IH.
Qed.

Lemma mapM_Ok {A B} (f : A → Res B) (g : A → B) (l : list A) :
  (∀ x, f x = Ok (g x)) → mapM f l = Ok (g <$> l).
Proof.
  intros Hf. induction l as [|x l IH]; [done|].
  change (mapM f (x :: l)) with (f x ≫= λ y, mapM f l ≫= λ k, mret (y :: k)).
  by rewrite Hf, IH.
Qed.

(** The document prompt of [from_llm] puts the header before the text
    body of the document. *)
Lemma format_document_template (body : string) :
  Stuff.format
    {| input_variables := ["page_content"]; template := document_template |}
    {[ "page_content" := body ]}
  = Ok ("Context:" +:+ nl +:+ body).
Proof.
  unfold Stuff.format, document_template. cbn -[getitem].
  unfold getitem. rewrite lookup_singleton_eq. cbn.
  by rewrite append_empty_r.
Qed.

Lemma base_chain_of_kwargs (kwargs : gmap string PyVal) (b : BaseValues) (e : Errors)
    (base : BaseRetrievalQA) (chain : BaseCombineDocumentsChain) :
  validate_base_fields kwargs = (b, e) →
  complete_base b = Some base →
  kwargs !! "combine_documents_chain" = Some (VChain chain) →
  combine_documents_chain base = chain.
Proof.
  unfold validate_base_fields. intros Hb Hbase Hchain.
  unfold validate_field at 1 in Hb. rewrite Hchain in Hb. simpl in Hb.
  destruct (validate_field kwargs "input_key" _ _) as [i e2].
  destruct (validate_field kwargs "output_key" _ _) as [o e3].
  destruct (validate_field kwargs "return_source_documents" _ _) as [r e4].
  injection Hb as <- _. unfold complete_base in Hbase. simpl in Hbase.
  destruct i, o, r; simpl in Hbase; try done. by injection Hbase as <-.
Qed.

(** The instance holds the chain that was passed to the constructor. *)
Lemma instantiate_chain (c : cls) (kwargs : gmap string PyVal) (self : Self)
    (chain : BaseCombineDocumentsChain) :
  instantiate c kwargs = Ok self →
  kwargs !! "combine_documents_chain" = Some (VChain chain) →
  combine_documents_chain self = chain.
Proof.
  intros Hinit Hchain. destruct c; unfold instantiate in Hinit.
  - destruct (RetrievalQA.init kwargs) as [s|] eqn:Hs; [|done].
    injection Hinit as <-. simpl.
    unfold RetrievalQA.init, RetrievalQA.validate_fields in Hs.
    destruct (validate_base_fields kwargs) as [b e0] eqn:Hb.
    destruct (validate_field kwargs "retriever" _ _) as [r e1].
    apply validated_Ok_inv in Hs as [_ Hs].
    unfold RetrievalQA.complete in Hs. simpl in Hs.
    destruct (complete_base b) as [base|] eqn:Hbase; [|done].
    destruct r; [|done]. simpl in Hs. injection Hs as <-. simpl.
    by eapply base_chain_of_kwargs.
  - destruct (VectorDBQA.init kwargs) as [s|] eqn:Hs; [|done].
    injection Hinit as <-. simpl.
    apply VectorDBQA_init_Ok in Hs as (_ & _ & (b & Hb & Hbase) & _).
    by eapply base_chain_of_kwargs.
Qed.


End context.


(** ** End to end

    The example of the design document: a retriever that returns one
    document about Paris and a model that echoes its prompt.  The answer
    is the echoed prompt, which holds the document text after the header
    and the question. *)
Example answer_echoes_context_and_question :
  let question := "What is the capital of France?" in
  ∃ self,
    from_llm (FW := Stub.framework) RetrievalQA_cls Stub.the_llm None Stub.retriever_kwargs
      = Ok self
    ∧ (_call (CO := Stub.collaborators) self {[ "query" := question ]} Stub.st0).1
      = Ok {[ "result" :=
                OutStr ("Context:" +:+ nl +:+ "Paris is the capital of France."
                        +:+ " Question: " +:+ question) ]}.
Proof. eexists. split; vm_compute; reflexivity. Qed.

(** * Further properties of the module *)

(** ** The call, step by step *)

Section call_steps.
Context {CO : Collaborators}.

(** A retrieval that returns documents has entered the backend exactly
    once, with the question. *)
Lemma get_docs_Ok_trace (self : Self) (question : string) st docs st1 :
  _get_docs self question st = (Ok docs, st1) →
  trace st1 = trace st ++ [retrieval_call self question].
Proof.
  destruct self as [self|self]; unfold _get_docs, retrieval_call.
  - unfold RetrievalQA._get_docs. intros Hdocs.
    pose proof (invoke_spec
      (Call_get_relevant_texts (RetrievalQA.retriever self) question)
      (get_relevant_texts (RetrievalQA.retriever self) question) st) as (_ & _ & Htrace).
    by rewrite Hdocs in Htrace.
  - unfold VectorDBQA._get_docs.
    assert (Hsearch : ∀ event method,
      VectorDBQA.search event method self question st = (Ok docs, st1) →
      trace st1 = trace st ++ [event (VectorDBQA.vectorstore self) question
                                 (VectorDBQA.k self) (VectorDBQA.search_kwargs self)]).
    { intros event method Hrun.
      destruct (VectorDBQA.search_kwargs self !! "k") as [a|] eqn:Hk.
      - rewrite search_repeated_k in Hrun by (rewrite Hk; eauto). discriminate Hrun.
      - destruct (search_spec event method self question st Hk) as (_ & _ & Htrace).
        by rewrite Hrun in Htrace. }
    case_bool_decide; [by apply Hsearch|].
    case_bool_decide; [by apply Hsearch|]. discriminate.
Qed.

(** Combining that returns an answer has logged its own call and then
    only calls of the language model: exactly one for the stuff chain,
    those the chain reports for a chain from [load_qa_chain]. *)
Lemma combine_docs_Ok_trace (chain : BaseCombineDocumentsChain) (docs : list Document)
    (question : string) st1 answer aux st' :
  combine_docs chain docs question st1 = (Ok (answer, aux), st') →
  ∃ rest,
    trace st' = trace st1 ++ Call_combine_docs chain docs question :: rest
    ∧ Forall (λ c, ∃ m text, c = Call_llm m text) rest
    ∧ (∀ llm_chain var document_prompt,
         chain = StuffDocumentsChain llm_chain var document_prompt →
         ∃ text, rest = [Call_llm (llm llm_chain) text]).
Proof.
  unfold combine_docs. intros Hrun.
  apply bind_Ok_inv in Hrun as ([] & sta & Hlog & Hrun).
  unfold log in Hlog. injection Hlog as <-.
  destruct chain as [llm_chain var document_prompt | id].
  - unfold Stuff.combine_docs in Hrun.
    apply bind_Ok_inv in Hrun as (context & stb & Hcontext & Hrun).
    apply lift_Ok_inv in Hcontext as [_ ->].
    apply bind_Ok_inv in Hrun as (text & stc & Htext & Hrun).
    apply lift_Ok_inv in Htext as [_ ->].
    apply bind_Ok_inv in Hrun as (a & std & Hllm & Hrun).
    injection Hrun as _ _ <-.
    pose proof (invoke_spec (Call_llm (llm llm_chain) text)
                  (llm_generate (llm llm_chain) text)
                  {| world := world st1;
                     trace := trace st1
                              ++ [Call_combine_docs
                                    (StuffDocumentsChain llm_chain var document_prompt)
                                    docs question] |}) as (_ & _ & Htrace).
    rewrite Hllm in Htrace. simpl in Htrace.
    exists [Call_llm (llm llm_chain) text]. split; [|split].
    + rewrite Htrace. by rewrite <- app_assoc.
    + apply Forall_singleton. eauto.
    + intros llm_chain' var' document_prompt' [= <- _ _]. eauto.
  - simpl in Hrun.
    destruct (loaded_combine_docs id docs question (world st1)) as [[r w] calls].
    injection Hrun as _ <-.
    exists ((λ call, Call_llm call.1 call.2) <$> calls). split; [|split].
    + simpl. by rewrite <- app_assoc.
    + apply Forall_fmap, Forall_forall. intros call _. simpl. eauto.
    + intros llm_chain var document_prompt Hchain. discriminate Hchain.
Qed.

(** X1.  When the inputs hold the question, the retrieval returns
    documents and combining them with the question returns an answer,
    the call returns: its final state is the one combining left, and,
    unless the output key is taken over by [source_documents], the value
    under the output key is that answer; what else combining returned is
    dropped. *)
Theorem X1_call_returns_the_combined_answer (self : Self)
    (inputs : gmap string string) (question : string) (docs : list Document)
    (answer : string) (aux : gmap string Atom) (st st1 st2 : State) :
  inputs !! input_key self = Some question →
  _get_docs self question st = (Ok docs, st1) →
  combine_docs (combine_documents_chain self) docs question st1 = (Ok (answer, aux), st2) →
  ∃ result,
    _call self inputs st = (Ok result, st2)
    ∧ (return_source_documents self = false ∨ output_key self ≠ "source_documents" →
       result !! output_key self = Some (OutStr answer)).
Proof.
  intros Hq Hdocs Hcombine. unfold _call.
  erewrite bind_Ok by (unfold lift, getitem; rewrite Hq; reflexivity).
  erewrite bind_Ok by exact Hdocs.
  erewrite bind_Ok by exact Hcombine. cbn beta iota.
  destruct (return_source_documents self); eexists; (split; [reflexivity|]).
  - intros [Hfalse|Hne]; [done|].
    rewrite lookup_insert_ne by done. apply lookup_singleton_eq.
  - intros _. apply lookup_singleton_eq.
Qed.

(** X2.  Nothing is caught: when the retrieval raises, the call raises
    the same exception in the state the retrieval left, so that nothing
    was combined; when combining raises, the call raises that exception
    and returns no result. *)
Theorem X2_failures_propagate_unchanged (self : Self) (inputs : gmap string string)
    (question : string) (st : State) :
  inputs !! input_key self = Some question →
  (∀ e st1,
     _get_docs self question st = (Raise e, st1) →
     _call self inputs st = (Raise e, st1))
  ∧ (∀ docs st1 e st2,
       _get_docs self question st = (Ok docs, st1) →
       combine_docs (combine_documents_chain self) docs question st1 = (Raise e, st2) →
       _call self inputs st = (Raise e, st2)).
Proof.
  intros Hq. split.
  - intros e st1 Hdocs. unfold _call.
    erewrite bind_Ok by (unfold lift, getitem; rewrite Hq; reflexivity).
    by apply bind_Raise.
  - intros docs st1 e st2 Hdocs Hcombine. unfold _call.
    erewrite bind_Ok by (unfold lift, getitem; rewrite Hq; reflexivity).
    erewrite bind_Ok by exact Hdocs.
    by apply bind_Raise.
Qed.

(** X3.  A call that completes has entered the retrieval backend exactly
    once, then the combine-documents chain exactly once, on the
    documents just retrieved and the question; every call after that is
    a call of the language model made by the chain, exactly one when the
    chain is a stuff chain. *)
Theorem X3_call_is_one_retrieval_then_one_combination (self : Self)
    (inputs : gmap string string) (st : State) (result : gmap string Output)
    (st' : State) :
  _call self inputs st = (Ok result, st') →
  ∃ question docs rest,
    inputs !! input_key self = Some question
    ∧ (_get_docs self question st).1 = Ok docs
    ∧ trace st'
      = trace st ++ retrieval_call self question
                 :: Call_combine_docs (combine_documents_chain self) docs question
                 :: rest
    ∧ Forall (λ c, ∃ m text, c = Call_llm m text) rest
    ∧ (∀ llm_chain var document_prompt,
         combine_documents_chain self
         = StuffDocumentsChain llm_chain var document_prompt →
         ∃ text, rest = [Call_llm (llm llm_chain) text]).
Proof.
  intros Hcall.
  apply call_Ok_inv in Hcall
    as (question & docs & st1 & answer & aux & Hq & Hdocs & Hcombine & _).
  apply combine_docs_Ok_trace in Hcombine as (rest & Htrace & Hrest & Hstuff).
  exists question, docs, rest. split; [done|]. split; [by rewrite Hdocs|].
  split; [|done].
  rewrite Htrace, (get_docs_Ok_trace _ _ _ _ _ Hdocs). by rewrite <- app_assoc.
Qed.

(** X4.  Only the entry under the input key is read: two input
    dictionaries that agree on it give the same call, whatever else
    they hold. *)
Theorem X4_other_inputs_are_ignored (self : Self) (inputs inputs' : gmap string string)
    (st : State) :
  inputs !! input_key self = inputs' !! input_key self →
  _call self inputs st = _call self inputs' st.
Proof.
  intros Hsame. unfold _call, getitem. by rewrite Hsame.
Qed.

End call_steps.

(** X5.  The declared output keys hold a name twice exactly when the
    documents are returned and the output key is itself
    [source_documents]; the output key is always among them. *)
Theorem X5_output_keys_repeat_only_on_collision (self : BaseRetrievalQA) :
  (NoDup (output_keys self)
   ↔ ¬ (return_source_documents self = true ∧ output_key self = "source_documents"))
  ∧ output_key self ∈ output_keys self.
Proof.
  unfold output_keys. destruct (return_source_documents self); simpl.
  - split; [|apply list_elem_of_here]. split.
    + intros Hnodup [_ Heq]. apply NoDup_cons in Hnodup as [Hnotin _].
      apply Hnotin. rewrite Heq. apply list_elem_of_here.
    + intros Hne. apply NoDup_cons. split.
      * intros Hin. apply elem_of_cons in Hin as [Heq|Hin]; [by apply Hne|].
        by apply elem_of_nil in Hin.
      * apply NoDup_singleton.
  - split; [|apply list_elem_of_here]. split.
    + intros _ [Hfalse _]. discriminate Hfalse.
    + intros _. apply NoDup_singleton.
Qed.

(** A check of X1 on the stub retriever. *)
Lemma X1_call_returns_the_combined_answer_witness :
  let self := RetrievalQA_self (Stub.retrieval "result" true) in
  let inputs : gmap string string := {[ "query" := "capital?" ]} in
  let st1 := @Build_State Stub.collaborators tt
    [Call_get_relevant_texts Stub.the_retriever "capital?"] in
  let st2 := @Build_State Stub.collaborators tt
    [Call_get_relevant_texts Stub.the_retriever "capital?";
     Call_combine_docs (LoadedChain 0) [Stub.paris] "capital?"] in
  ∃ result,
    _call self inputs Stub.st0 = (Ok result, st2)
    ∧ result !! "result" = Some (OutStr "capital?").
Proof.
  intros self inputs st1 st2.
  assert (Hq : inputs !! input_key self = Some "capital?") by reflexivity.
  assert (Hdocs : _get_docs self "capital?" Stub.st0 = (Ok [Stub.paris], st1))
    by reflexivity.
  assert (Hcombine : combine_docs (combine_documents_chain self) [Stub.paris]
                       "capital?" st1 = (Ok ("capital?", ∅), st2)) by reflexivity.
  destruct (X1_call_returns_the_combined_answer (CO := Stub.collaborators)
              self inputs "capital?" [Stub.paris] "capital?" ∅ Stub.st0 st1 st2
              Hq Hdocs Hcombine) as (result & Hcall & Hanswer).
  exists result. split; [exact Hcall|]. apply Hanswer. right. discriminate.
Defined.

(** A check of X2: a retriever that is down, then a model that is down. *)
Lemma X2_failures_propagate_unchanged_witness :
  let inputs : gmap string string := {[ "query" := "capital?" ]} in
  let st := @Build_State Stub.unreliable tt [] in
  let st1 r := @Build_State Stub.unreliable tt [Call_get_relevant_texts r "capital?"] in
  _call (RetrievalQA_self (Stub.stuffed (RetrieverRef 1))) inputs st
  = (Raise (OtherError "ConnectionError" "retriever down"), st1 (RetrieverRef 1))
  ∧ _call (RetrievalQA_self (Stub.stuffed (RetrieverRef 0))) inputs st
    = (Raise (OtherError "Timeout" "model down"),
       @Build_State Stub.unreliable tt
         [Call_get_relevant_texts (RetrieverRef 0) "capital?";
          Call_combine_docs Stub.the_chain [Stub.paris] "capital?";
          Call_llm Stub.the_llm
            ("Context:" +:+ nl +:+ "Paris is the capital of France."
             +:+ " Question: capital?")]).
Proof.
  intros inputs st st1. split.
  - apply (proj1 (X2_failures_propagate_unchanged (CO := Stub.unreliable)
                    (RetrievalQA_self (Stub.stuffed (RetrieverRef 1)))
                    inputs "capital?" st ltac:(reflexivity))).
    reflexivity.
  - apply (proj2 (X2_failures_propagate_unchanged (CO := Stub.unreliable)
                    (RetrievalQA_self (Stub.stuffed (RetrieverRef 0)))
                    inputs "capital?" st ltac:(reflexivity))
             [Stub.paris] (st1 (RetrieverRef 0))).
    + reflexivity.
    + vm_compute. reflexivity.
Defined.

(** A check of X3: the stuff chain calls the model once, a chain that
    maps over the documents and reduces calls it three times for two
    documents. *)
Lemma X3_call_is_one_retrieval_then_one_combination_witness :
  (∃ result st' text,
     _call (CO := Stub.collaborators) (RetrievalQA_self (Stub.stuffed Stub.the_retriever))
       {[ "query" := "capital?" ]} Stub.st0 = (Ok result, st')
     ∧ trace st'
       = [Call_get_relevant_texts Stub.the_retriever "capital?";
          Call_combine_docs Stub.the_chain [Stub.paris] "capital?";
          Call_llm Stub.the_llm text])
  ∧ (∃ result st' rest,
       _call (CO := Stub.map_reduce) (VectorDBQA_self Stub.mapped)
         {[ "query" := "capital?" ]} (@Build_State Stub.map_reduce tt [])
       = (Ok result, st')
       ∧ trace st'
         = Call_similarity_search Stub.the_store "capital?" 4 ∅
           :: Call_combine_docs (LoadedChain 1) [Stub.paris; Stub.lyon] "capital?"
           :: rest
       ∧ length rest = 3%nat
       ∧ Forall (λ c, ∃ m text, c = Call_llm m text) rest).
Proof.
  split.
  - assert (Hrun : ∃ result st',
      _call (CO := Stub.collaborators)
        (RetrievalQA_self (Stub.stuffed Stub.the_retriever))
        {[ "query" := "capital?" ]} Stub.st0 = (Ok result, st'))
      by (eexists _, _; vm_compute; reflexivity).
    destruct Hrun as (result & st' & Hrun).
    destruct (X3_call_is_one_retrieval_then_one_combination (CO := Stub.collaborators)
                _ _ _ _ _ Hrun)
      as (question & docs & rest & Hq & Hdocs & Htrace & _ & Hstuff).
    injection Hq as <-. injection Hdocs as <-.
    destruct (Hstuff _ _ _ eq_refl) as [text ->].
    exists result, st', text. split; [exact Hrun | exact Htrace].
  - assert (Hrun : ∃ result st',
      _call (CO := Stub.map_reduce) (VectorDBQA_self Stub.mapped)
        {[ "query" := "capital?" ]} (@Build_State Stub.map_reduce tt [])
      = (Ok result, st') ∧ length (trace st') = 5%nat)
      by (eexists _, _; split; vm_compute; reflexivity).
    destruct Hrun as (result & st' & Hrun & Hlength).
    destruct (X3_call_is_one_retrieval_then_one_combination (CO := Stub.map_reduce)
                _ _ _ _ _ Hrun)
      as (question & docs & rest & Hq & Hdocs & Htrace & Hrest & _).
    injection Hq as <-. injection Hdocs as <-.
    exists result, st', rest. split; [exact Hrun|]. split; [exact Htrace|].
    split; [|exact Hrest].
    rewrite Htrace in Hlength. simpl in Hlength. by injection Hlength.
Defined.

(** A check of X4: a second input key changes nothing. *)
Lemma X4_other_inputs_are_ignored_witness :
  _call (CO := Stub.collaborators) (RetrievalQA_self (Stub.retrieval "result" true))
    (<["chat_history" := "none"]> {[ "query" := "capital?" ]}) Stub.st0
  = _call (CO := Stub.collaborators) (RetrievalQA_self (Stub.retrieval "result" true))
      {[ "query" := "capital?" ]} Stub.st0.
Proof.
  apply (X4_other_inputs_are_ignored (CO := Stub.collaborators)). reflexivity.
Defined.

(** ** What the constructors store and refuse *)

Section construction_extras.
Context {FW : Framework}.

Lemma validate_field_Some_inv {A} input name (validator : PyVal → Validated A)
    default (a : A) (e : Errors) :
  validate_field input name validator default = (Some a, e) →
  match input !! name with
  | Some v => validator v = Valid a
  | None => default = Some a
  end.
Proof.
  unfold validate_field. destruct (input !! name) as [v|].
  - destruct (validator v); naive_solver.
  - destruct default; naive_solver.
Qed.

Lemma validate_field_nil {A} input name (validator : PyVal → Validated A) default
    (o : option A) :
  validate_field input name validator default = (o, []) → is_Some o.
Proof.
  destruct (validate_field_cases input name validator default) as [[a ->]|[e ->]];
    naive_solver.
Qed.

Lemma validate_field_required {A} input name (validator : PyVal → Validated A) :
  input !! name = None →
  validate_field input name validator None = (None, [(name, "field required")]).
Proof. intros Hnone. unfold validate_field. by rewrite Hnone. Qed.

(** The four fields of the base class, once validated without error. *)
Lemma base_fields_Ok (kwargs : gmap string PyVal) (b : BaseValues)
    (base : BaseRetrievalQA) :
  validate_base_fields kwargs = (b, []) →
  complete_base b = Some base →
  validate_field kwargs "combine_documents_chain" chain_validator None
    = (Some (combine_documents_chain base), [])
  ∧ validate_field kwargs "input_key" str_validator (Some "query")
    = (Some (input_key base), [])
  ∧ validate_field kwargs "output_key" str_validator (Some "result")
    = (Some (output_key base), [])
  ∧ validate_field kwargs "return_source_documents" bool_validator (Some false)
    = (Some (return_source_documents base), []).
Proof.
  unfold validate_base_fields.
  destruct (validate_field kwargs "combine_documents_chain" _ _) as [c e1].
  destruct (validate_field kwargs "input_key" _ _) as [i e2].
  destruct (validate_field kwargs "output_key" _ _) as [o e3].
  destruct (validate_field kwargs "return_source_documents" _ _) as [r e4].
  intros [= <- Herr] Hbase.
  apply app_eq_nil in Herr as [-> Herr].
  apply app_eq_nil in Herr as [-> Herr].
  apply app_eq_nil in Herr as [-> ->].
  unfold complete_base in Hbase. simpl in Hbase.
  destruct c, i, o, r; simpl in Hbase; try done. by injection Hbase as <-.
Qed.

Lemma base_fields_complete (kwargs : gmap string PyVal) (b : BaseValues) :
  validate_base_fields kwargs = (b, []) → is_Some (complete_base b).
Proof.
  unfold validate_base_fields.
  destruct (validate_field kwargs "combine_documents_chain" _ _) as [c e1] eqn:Hc.
  destruct (validate_field kwargs "input_key" _ _) as [i e2] eqn:Hi.
  destruct (validate_field kwargs "output_key" _ _) as [o e3] eqn:Ho.
  destruct (validate_field kwargs "return_source_documents" _ _) as [r e4] eqn:Hr.
  intros [= <- Herr].
  apply app_eq_nil in Herr as [-> Herr].
  apply app_eq_nil in Herr as [-> Herr].
  apply app_eq_nil in Herr as [-> ->].
  apply validate_field_nil in Hc as [? ->]. apply validate_field_nil in Hi as [? ->].
  apply validate_field_nil in Ho as [? ->]. apply validate_field_nil in Hr as [? ->].
  unfold complete_base. simpl. eauto.
Qed.

(** The constructor of [RetrievalQA] succeeds exactly when nothing
    reports an error. *)
Lemma RetrievalQA_init_Ok (kwargs : gmap string PyVal) (self : RetrievalQA.t) :
  RetrievalQA.init kwargs = Ok self ↔
    chain_errors kwargs = []
    ∧ extra_errors (chain_fields ++ RetrievalQA_fields) kwargs = []
    ∧ (∃ b, validate_base_fields kwargs = (b, [])
            ∧ complete_base b = Some (RetrievalQA.base self))
    ∧ validate_field kwargs "retriever" retriever_validator None
      = (Some (RetrievalQA.retriever self), []).
Proof.
  unfold RetrievalQA.init, RetrievalQA.validate_fields.
  destruct (validate_base_fields kwargs) as [b e0].
  destruct (validate_field kwargs "retriever" _ _) as [r e1].
  split.
  - intros [Herr Hself]%validated_Ok_inv.
    apply app_eq_nil in Herr as [Hchain Herr].
    apply app_eq_nil in Herr as [Herr Hextra].
    apply app_eq_nil in Herr as [-> ->].
    unfold RetrievalQA.complete in Hself. simpl in Hself.
    destruct (complete_base b) as [b'|] eqn:Hb; [|done].
    destruct r as [r|]; [|done]. simpl in Hself. injection Hself as <-. simpl.
    eauto 10.
  - intros (Hchain & Hextra & (b' & [= -> ->] & Hb) & [= -> ->]).
    rewrite Hchain, Hextra. simpl.
    unfold RetrievalQA.complete. simpl. rewrite Hb. simpl. by destruct self.
Qed.

(** An instance of either class comes with the validated base fields. *)
Lemma instantiate_base (c : cls) (kwargs : gmap string PyVal) (self : Self) :
  instantiate c kwargs = Ok self →
  ∃ b, validate_base_fields kwargs = (b, []) ∧ complete_base b = Some (base_of self).
Proof.
  intros Hinit. destruct c; unfold instantiate in Hinit.
  - destruct (RetrievalQA.init kwargs) as [s|] eqn:Hs; [|done].
    injection Hinit as <-. by apply RetrievalQA_init_Ok in Hs as (_ & _ & ? & _).
  - destruct (VectorDBQA.init kwargs) as [s|] eqn:Hs; [|done].
    injection Hinit as <-. by apply VectorDBQA_init_Ok in Hs as (_ & _ & ? & _).
Qed.

(** X6.  An instance of either class holds, in the fields of the base
    class, what the constructor was given: the chain passed as
    [combine_documents_chain], which must have been passed, and for
    [input_key], [output_key] and [return_source_documents] the value
    passed or, when the keyword is omitted, the default [query],
    [result] and [False]. *)
Theorem X6_base_fields_hold_the_arguments_or_defaults (c : cls)
    (kwargs : gmap string PyVal) (self : Self) :
  instantiate c kwargs = Ok self →
  kwargs !! "combine_documents_chain" = Some (VChain (combine_documents_chain self))
  ∧ (kwargs !! "input_key" = None → input_key self = "query")
  ∧ (∀ s, kwargs !! "input_key" = Some (VStr s) → input_key self = s)
  ∧ (kwargs !! "output_key" = None → output_key self = "result")
  ∧ (∀ s, kwargs !! "output_key" = Some (VStr s) → output_key self = s)
  ∧ (kwargs !! "return_source_documents" = None → return_source_documents self = false)
  ∧ (∀ b, kwargs !! "return_source_documents" = Some (VBool b) →
          return_source_documents self = b).
Proof.
  intros Hinit. apply instantiate_base in Hinit as (b & Hb & Hbase).
  destruct (base_fields_Ok _ _ _ Hb Hbase) as (Hc & Hi & Ho & Hr).
  apply validate_field_Some_inv in Hc, Hi, Ho, Hr.
  split.
  { destruct (kwargs !! "combine_documents_chain") as [v|]; [|done].
    destruct v; simpl in Hc; try done. by injection Hc as ->. }
  split; [intros Hnone; rewrite Hnone in Hi; by injection Hi|].
  split; [intros s Hs; rewrite Hs, str_validator_str in Hi; by injection Hi|].
  split; [intros Hnone; rewrite Hnone in Ho; by injection Ho|].
  split; [intros s Hs; rewrite Hs, str_validator_str in Ho; by injection Ho|].
  split; [intros Hnone; rewrite Hnone in Hr; by injection Hr|].
  intros b' Hs. rewrite Hs, bool_validator_bool in Hr. by injection Hr.
Qed.

(** X7.  An instance of [VectorDBQA] holds the vector store that was
    passed, which must have been passed, the limit and the mode and
    extra search arguments that were passed, and, when the keyword is
    omitted, the mode [similarity] and no extra search argument. *)
Theorem X7_VectorDBQA_fields_hold_the_arguments_or_defaults
    (kwargs : gmap string PyVal) (self : VectorDBQA.t) :
  VectorDBQA.init kwargs = Ok self →
  kwargs !! "vectorstore" = Some (VVectorStore (VectorDBQA.vectorstore self))
  ∧ (∀ z, kwargs !! "k" = Some (VInt z) → VectorDBQA.k self = z)
  ∧ (kwargs !! "search_type" = None → VectorDBQA.search_type self = "similarity")
  ∧ (∀ s, kwargs !! "search_type" = Some (VStr s) → VectorDBQA.search_type self = s)
  ∧ (kwargs !! "search_kwargs" = None → VectorDBQA.search_kwargs self = ∅)
  ∧ (∀ d, kwargs !! "search_kwargs" = Some (VDict d) →
          VectorDBQA.search_kwargs self = d).
Proof.
  intros Hinit.
  apply VectorDBQA_init_Ok in Hinit as (_ & _ & _ & Hvs & Hk & Hst & Hkw & _).
  apply validate_field_Some_inv in Hvs, Hk, Hst, Hkw.
  split.
  { destruct (kwargs !! "vectorstore") as [v|]; [|done].
    destruct v; simpl in Hvs; try done. by injection Hvs as ->. }
  split; [intros z Hz; rewrite Hz, int_validator_int in Hk; by injection Hk|].
  split; [intros Hnone; rewrite Hnone in Hst; by injection Hst|].
  split; [intros s Hs; rewrite Hs, str_validator_str in Hst; by injection Hst|].
  split; [intros Hnone; rewrite Hnone in Hkw; by injection Hkw|].
  intros d Hd. rewrite Hd, dict_validator_dict in Hkw. by injection Hkw.
Qed.

End construction_extras.

Section constructor_errors.
Context {FW : Framework}.

Lemma RetrievalQA_fields_complete (kwargs : gmap string PyVal) values :
  RetrievalQA.validate_fields kwargs = (values, []) →
  is_Some (RetrievalQA.complete values).
Proof.
  unfold RetrievalQA.validate_fields.
  destruct (validate_base_fields kwargs) as [b e0] eqn:Hb.
  destruct (validate_field kwargs "retriever" _ _) as [r e1] eqn:Hr.
  intros [= <- Herr]. apply app_eq_nil in Herr as [-> ->].
  apply base_fields_complete in Hb as [base Hbase].
  apply validate_field_nil in Hr as [? ->].
  unfold RetrievalQA.complete. simpl. rewrite Hbase. simpl. eauto.
Qed.

Lemma VectorDBQA_fields_complete (kwargs : gmap string PyVal) values :
  VectorDBQA.validate_fields kwargs = (values, []) →
  is_Some (VectorDBQA.complete values).
Proof.
  unfold VectorDBQA.validate_fields.
  destruct (validate_base_fields kwargs) as [b e0] eqn:Hb.
  destruct (validate_field kwargs "vectorstore" _ _) as [vs e1] eqn:Hvs.
  destruct (validate_field kwargs "k" _ _) as [k e2] eqn:Hk.
  destruct (validate_field kwargs "search_type" _ _) as [mode e3] eqn:Hmode.
  destruct (validate_field kwargs "search_kwargs" _ _) as [kw e4] eqn:Hkw.
  intros [= <- Herr].
  apply app_eq_nil in Herr as [-> Herr].
  apply app_eq_nil in Herr as [-> Herr].
  apply app_eq_nil in Herr as [-> Herr].
  apply app_eq_nil in Herr as [-> ->].
  apply base_fields_complete in Hb as [base Hbase].
  apply validate_field_nil in Hvs as [? ->]. apply validate_field_nil in Hk as [? ->].
  apply validate_field_nil in Hmode as [? ->]. apply validate_field_nil in Hkw as [? ->].
  unfold VectorDBQA.complete. simpl. rewrite Hbase. simpl. eauto.
Qed.

(** Every error of a field ends up in the [ValidationError] that the
    constructor raises. *)
Lemma RetrievalQA_init_error (kwargs : gmap string PyVal) (e : string * string) :
  e ∈ (RetrievalQA.validate_fields kwargs).2 →
  ∃ errors, RetrievalQA.init kwargs = Raise (ValidationError errors) ∧ e ∈ errors.
Proof.
  unfold RetrievalQA.init.
  destruct (RetrievalQA.validate_fields kwargs) as [values errors]. simpl.
  intros He. eexists. split.
  - apply validated_Raise, (elem_of_not_nil e). rewrite !elem_of_app. auto.
  - rewrite !elem_of_app. auto.
Qed.

Lemma VectorDBQA_init_error (kwargs : gmap string PyVal) (e : string * string) :
  e ∈ (VectorDBQA.validate_fields kwargs).2 →
  ∃ errors, VectorDBQA.init kwargs = Raise (ValidationError errors) ∧ e ∈ errors.
Proof.
  unfold VectorDBQA.init.
  destruct (VectorDBQA.validate_fields kwargs) as [values errors]. simpl.
  rewrite run_validate_search_type. unfold mbind, Res_bind.
  intros He. eexists. split.
  - apply validated_Raise, (elem_of_not_nil e). rewrite !elem_of_app. auto.
  - rewrite !elem_of_app. auto.
Qed.

Lemma base_required (kwargs : gmap string PyVal) :
  kwargs !! "combine_documents_chain" = None →
  ("combine_documents_chain", "field required") ∈ (validate_base_fields kwargs).2.
Proof.
  intros Hnone. unfold validate_base_fields.
  rewrite validate_field_required by done.
  destruct (validate_field kwargs "input_key" _ _) as [i e2].
  destruct (validate_field kwargs "output_key" _ _) as [o e3].
  destruct (validate_field kwargs "return_source_documents" _ _) as [r e4].
  simpl. apply list_elem_of_here.
Qed.

(** X8.  The fields without a default are required: constructing either
    class without [combine_documents_chain], a [RetrievalQA] without
    [retriever] or a [VectorDBQA] without [vectorstore] raises
    [ValidationError] with the entry [field required] for that name. *)
Theorem X8_fields_without_default_are_required (kwargs : gmap string PyVal) :
  (∀ c : cls,
     kwargs !! "combine_documents_chain" = None →
     ∃ errors,
       instantiate c kwargs = Raise (ValidationError errors)
       ∧ ("combine_documents_chain", "field required") ∈ errors)
  ∧ (kwargs !! "retriever" = None →
     ∃ errors,
       RetrievalQA.init kwargs = Raise (ValidationError errors)
       ∧ ("retriever", "field required") ∈ errors)
  ∧ (kwargs !! "vectorstore" = None →
     ∃ errors,
       VectorDBQA.init kwargs = Raise (ValidationError errors)
       ∧ ("vectorstore", "field required") ∈ errors).
Proof.
  split; [|split].
  - intros c Hnone. pose proof (base_required kwargs Hnone) as Hbase.
    destruct c; unfold instantiate.
    + destruct (RetrievalQA_init_error kwargs
                  ("combine_documents_chain", "field required")) as (errors & -> & Hin).
      * unfold RetrievalQA.validate_fields.
        destruct (validate_base_fields kwargs) as [b e0].
        destruct (validate_field kwargs "retriever" _ _) as [r e1].
        simpl in *. apply elem_of_app. by left.
      * eauto.
    + destruct (VectorDBQA_init_error kwargs
                  ("combine_documents_chain", "field required")) as (errors & -> & Hin).
      * unfold VectorDBQA.validate_fields.
        destruct (validate_base_fields kwargs) as [b e0].
        destruct (validate_field kwargs "vectorstore" _ _) as [vs e1].
        destruct (validate_field kwargs "k" _ _) as [k e2].
        destruct (validate_field kwargs "search_type" _ _) as [mode e3].
        destruct (validate_field kwargs "search_kwargs" _ _) as [kw e4].
        simpl in *. apply elem_of_app. by left.
      * eauto.
  - intros Hnone. apply RetrievalQA_init_error.
    unfold RetrievalQA.validate_fields.
    destruct (validate_base_fields kwargs) as [b e0].
    rewrite validate_field_required by done. simpl.
    apply elem_of_app. right. apply list_elem_of_here.
  - intros Hnone. apply VectorDBQA_init_error.
    unfold VectorDBQA.validate_fields.
    destruct (validate_base_fields kwargs) as [b e0].
    rewrite validate_field_required by done.
    destruct (validate_field kwargs "k" _ _) as [k e2].
    destruct (validate_field kwargs "search_type" _ _) as [mode e3].
    destruct (validate_field kwargs "search_kwargs" _ _) as [kw e4].
    simpl. apply elem_of_app. right. apply list_elem_of_here.
Qed.

(** X9.  The constructor of either class returns an instance or raises
    [ValidationError] with at least one entry, and nothing else: the
    [ValueError] of [validate_search_type] never leaves the constructor
    as such, and a construction in which no check reports an error
    succeeds. *)
Theorem X9_constructor_raises_only_ValidationError (c : cls)
    (kwargs : gmap string PyVal) :
  match instantiate c kwargs with
  | Ok _ => True
  | Raise (ValidationError errors) => errors ≠ []
  | Raise _ => False
  end.
Proof.
  assert (Hend : ∀ {T} (errors : Errors) (object : option T),
    (errors = [] → is_Some object) →
    match validated errors object with
    | Ok _ => True
    | Raise (ValidationError errors) => errors ≠ []
    | Raise _ => False
    end).
  { intros T errors object Hsome. destruct errors as [|e errors].
    - destruct (Hsome eq_refl) as [x ->]. done.
    - by destruct object. }
  assert (Hmap : ∀ {T} (f : T → Self) (r : Res T),
    match r with
    | Ok _ => True
    | Raise (ValidationError errors) => errors ≠ []
    | Raise _ => False
    end →
    match f <$> r with
    | Ok _ => True
    | Raise (ValidationError errors) => errors ≠ []
    | Raise _ => False
    end).
  { intros T f [x|e]; done. }
  destruct c; unfold instantiate; apply Hmap.
  - unfold RetrievalQA.init.
    destruct (RetrievalQA.validate_fields kwargs) as [values errors] eqn:Hfields.
    apply Hend. intros Herr.
    apply app_eq_nil in Herr as [_ Herr]. apply app_eq_nil in Herr as [-> _].
    by eapply RetrievalQA_fields_complete.
  - unfold VectorDBQA.init.
    destruct (VectorDBQA.validate_fields kwargs) as [values errors] eqn:Hfields.
    rewrite run_validate_search_type. unfold mbind, Res_bind.
    apply Hend. intros Herr.
    apply app_eq_nil in Herr as [Herr _].
    apply app_eq_nil in Herr as [_ Herr]. apply app_eq_nil in Herr as [-> _].
    by eapply VectorDBQA_fields_complete.
Qed.

End constructor_errors.

(** ** Validation and retrieval together *)

Section validated_retrieval.
Context {FW : Framework} {CO : Collaborators}.

(** X10.  On an instance that the constructor returned, [_get_docs]
    never takes its last branch: it raises [TypeError] without entering
    the vector store when [search_kwargs] holds [k], and otherwise
    enters, exactly once, the search that [search_type] selects. *)
Theorem X10_constructed_instance_always_searches (kwargs : gmap string PyVal)
    (self : VectorDBQA.t) (question : string) (st : State) :
  VectorDBQA.init kwargs = Ok self →
  let out := VectorDBQA._get_docs self question st in
  (is_Some (VectorDBQA.search_kwargs self !! "k")
   ∧ out = (Raise (TypeError "got multiple values for keyword argument 'k'"), st))
  ∨ (VectorDBQA.search_kwargs self !! "k" = None
     ∧ trace out.2 = trace st ++ [retrieval_call (VectorDBQA_self self) question]).
Proof.
  intros Hinit. cbn zeta.
  pose proof (VectorDBQA_init_search_type _ _ Hinit) as Hmode.
  unfold VectorDBQA._get_docs, retrieval_call.
  assert (Hsearch : ∀ event method,
    (is_Some (VectorDBQA.search_kwargs self !! "k")
     ∧ VectorDBQA.search event method self question st
       = (Raise (TypeError "got multiple values for keyword argument 'k'"), st))
    ∨ (VectorDBQA.search_kwargs self !! "k" = None
       ∧ trace (VectorDBQA.search event method self question st).2
         = trace st ++ [event (VectorDBQA.vectorstore self) question
                          (VectorDBQA.k self) (VectorDBQA.search_kwargs self)])).
  { intros event method.
    destruct (VectorDBQA.search_kwargs self !! "k") as [a|] eqn:Hk.
    - left. split; [eauto|]. apply search_repeated_k. rewrite Hk. eauto.
    - right. split; [done|]. by apply search_spec. }
  case_bool_decide as Hsim; [apply Hsearch|].
  case_bool_decide as Hmmr; [apply Hsearch|].
  exfalso. apply elem_of_cons in Hmode as [?|Hmode]; [done|].
  apply elem_of_cons in Hmode as [?|Hmode]; [done|]. by apply elem_of_nil in Hmode.
Qed.

End validated_retrieval.

(** ** The classmethods and the chain they pass on *)

Section classmethod_extras.
Context {FW : Framework}.

Lemma keyword_and_star_repeated {V} (name : string) (v : V) (star : gmap string V) :
  is_Some (star !! name) → keyword_and_star name v star = Raise (multiple_values name).
Proof. intros [w Hw]. unfold keyword_and_star. by rewrite Hw. Qed.

(** X11.  [combine_documents_chain] cannot be passed to the
    classmethods: when [kwargs] holds it, neither returns an instance,
    and the call of the constructor raises [TypeError] for the repeated
    keyword as soon as the chain to pass has been built. *)
Theorem X11_chain_keyword_cannot_be_repeated (c : cls) (model : BaseLanguageModel)
    (custom : option PromptTemplate) (chain_type : option string)
    (chain_type_kwargs : option (gmap string PyVal)) (kwargs : gmap string PyVal) :
  is_Some (kwargs !! "combine_documents_chain") →
  let llm_chain := {| llm := model; prompt := default (get_prompt model) custom |} in
  let document_prompt :=
    {| input_variables := ["page_content"]; template := document_template |} in
  let repeated :=
    TypeError "got multiple values for keyword argument 'combine_documents_chain'" in
  ¬ is_Ok (from_llm c model custom kwargs)
  ∧ ¬ is_Ok (from_chain_type c model chain_type chain_type_kwargs kwargs)
  ∧ (LLMChain_validate model (default (get_prompt model) custom) = [] →
     StuffDocumentsChain_validate llm_chain "context" document_prompt = [] →
     from_llm c model custom kwargs = Raise repeated)
  ∧ (default ∅ chain_type_kwargs !! "chain_type" = None →
     is_Ok (load_qa_chain model (default "stuff" chain_type)
              (default ∅ chain_type_kwargs)) →
     from_chain_type c model chain_type chain_type_kwargs kwargs = Raise repeated).
Proof.
  intros [v Hv]. cbn zeta.
  assert (Hcall : ∀ chain,
    keyword_and_star "combine_documents_chain" (VChain chain) kwargs ≫= instantiate c
    = Raise (TypeError
               "got multiple values for keyword argument 'combine_documents_chain'")).
  { intros chain. unfold keyword_and_star. by rewrite Hv. }
  assert (Hprompt : match custom with Some p => p | None => get_prompt model end
                    = default (get_prompt model) custom) by (by destruct custom).
  assert (Hllm : ¬ is_Ok (from_llm c model custom kwargs)
    ∧ (LLMChain_validate model (default (get_prompt model) custom) = [] →
       StuffDocumentsChain_validate
         {| llm := model; prompt := default (get_prompt model) custom |} "context"
         {| input_variables := ["page_content"]; template := document_template |} = [] →
       from_llm c model custom kwargs
       = Raise (TypeError
                  "got multiple values for keyword argument 'combine_documents_chain'"))).
  { unfold from_llm. rewrite Hprompt.
    destruct (LLMChain_validate model (default (get_prompt model) custom)) as [|e1 l1].
    - cbn [validated mbind Res_bind].
      destruct (StuffDocumentsChain_validate _ _ _) as [|e2 l2].
      + cbn [validated mbind Res_bind]. rewrite Hcall. split; [simpl; tauto | done].
      + split; [simpl; tauto | done].
    - split; [simpl; tauto | done]. }
  assert (Htype : ¬ is_Ok (from_chain_type c model chain_type chain_type_kwargs kwargs)
    ∧ (default ∅ chain_type_kwargs !! "chain_type" = None →
       is_Ok (load_qa_chain model (default "stuff" chain_type)
                (default ∅ chain_type_kwargs)) →
       from_chain_type c model chain_type chain_type_kwargs kwargs
       = Raise (TypeError
                  "got multiple values for keyword argument 'combine_documents_chain'"))).
  { unfold from_chain_type.
    assert (Ht : match chain_type with Some t => t | None => "stuff" end
                 = default "stuff" chain_type) by (by destruct chain_type).
    assert (Hd : match chain_type_kwargs with Some d => d | None => ∅ end
                 = default ∅ chain_type_kwargs) by (by destruct chain_type_kwargs).
    rewrite Ht, Hd.
    destruct (default ∅ chain_type_kwargs !! "chain_type") as [w|] eqn:Hfree.
    - rewrite (keyword_and_star_repeated "chain_type") by (rewrite Hfree; eauto).
      split; [simpl; tauto | done].
    - rewrite (keyword_and_star_fresh "chain_type") by done. cbn [mbind Res_bind].
      destruct (load_qa_chain _ _ _) as [chain|e].
      + cbn [mbind Res_bind]. rewrite Hcall. split; [simpl; tauto | done].
      + split; [simpl; tauto | intros _ []]. }
  tauto.
Qed.

(** X12.  [from_chain_type] with [chain_type_kwargs] that hold
    [chain_type] raises [TypeError] for the repeated keyword, whatever
    the other arguments; otherwise, when [load_qa_chain] raises, so does
    [from_chain_type], with the same exception, and [kwargs] is not
    looked at. *)
Theorem X12_from_chain_type_fails_with_the_loader (c : cls) (model : BaseLanguageModel)
    (chain_type : option string) (chain_type_kwargs : option (gmap string PyVal))
    (kwargs : gmap string PyVal) :
  (is_Some (default ∅ chain_type_kwargs !! "chain_type") →
   from_chain_type c model chain_type chain_type_kwargs kwargs
   = Raise (TypeError "got multiple values for keyword argument 'chain_type'"))
  ∧ (∀ e,
       default ∅ chain_type_kwargs !! "chain_type" = None →
       load_qa_chain model (default "stuff" chain_type) (default ∅ chain_type_kwargs)
       = Raise e →
       from_chain_type c model chain_type chain_type_kwargs kwargs = Raise e).
Proof.
  unfold from_chain_type.
  assert (Ht : match chain_type with Some t => t | None => "stuff" end
               = default "stuff" chain_type) by (by destruct chain_type).
  assert (Hd : match chain_type_kwargs with Some d => d | None => ∅ end
               = default ∅ chain_type_kwargs) by (by destruct chain_type_kwargs).
  rewrite Ht, Hd. split.
  - intros Hsome. by rewrite (keyword_and_star_repeated "chain_type").
  - intros e Hfree Hload.
    rewrite (keyword_and_star_fresh "chain_type") by done. cbn [mbind Res_bind].
    by rewrite Hload.
Qed.

(** X13.  When [load_qa_chain] returns a chain and no keyword is
    repeated, [from_chain_type] is the constructor of the class called
    with [kwargs] and that chain: it returns an instance exactly when the
    constructor does, and the instance holds the loaded chain.  With
    [chain_type] omitted the chain loaded is the one named [stuff]. *)
Theorem X13_from_chain_type_constructs_with_the_loaded_chain (c : cls)
    (model : BaseLanguageModel) (chain_type : option string)
    (chain_type_kwargs : option (gmap string PyVal)) (kwargs : gmap string PyVal)
    (chain : BaseCombineDocumentsChain) :
  default ∅ chain_type_kwargs !! "chain_type" = None →
  load_qa_chain model (default "stuff" chain_type) (default ∅ chain_type_kwargs)
  = Ok chain →
  kwargs !! "combine_documents_chain" = None →
  from_chain_type c model chain_type chain_type_kwargs kwargs
  = instantiate c (<["combine_documents_chain" := VChain chain]> kwargs)
  ∧ ∀ self,
      from_chain_type c model chain_type chain_type_kwargs kwargs = Ok self →
      combine_documents_chain self = chain.
Proof.
  intros Hfree Hload Hnone.
  assert (Heq : from_chain_type c model chain_type chain_type_kwargs kwargs
                = instantiate c (<["combine_documents_chain" := VChain chain]> kwargs)).
  { unfold from_chain_type.
    assert (Ht : match chain_type with Some t => t | None => "stuff" end
                 = default "stuff" chain_type) by (by destruct chain_type).
    assert (Hd : match chain_type_kwargs with Some d => d | None => ∅ end
                 = default ∅ chain_type_kwargs) by (by destruct chain_type_kwargs).
    rewrite Ht, Hd.
    rewrite (keyword_and_star_fresh "chain_type") by done. cbn [mbind Res_bind].
    rewrite Hload. cbn [mbind Res_bind].
    by rewrite (keyword_and_star_fresh "combine_documents_chain") by done. }
  split; [done|]. intros self Hself. rewrite Heq in Hself.
  apply (instantiate_chain c _ self chain Hself). apply lookup_insert_eq.
Qed.

End classmethod_extras.

(** A check of X6: an output key is passed, the rest is left out. *)
Lemma X6_base_fields_hold_the_arguments_or_defaults_witness :
  let kwargs : gmap string PyVal :=
    <["output_key" := VStr "answer"]>
      (<["combine_documents_chain" := VChain Stub.the_chain]> Stub.retriever_kwargs) in
  ∃ self,
    instantiate (FW := Stub.framework) RetrievalQA_cls kwargs = Ok self
    ∧ combine_documents_chain self = Stub.the_chain
    ∧ input_key self = "query"
    ∧ output_key self = "answer"
    ∧ return_source_documents self = false.
Proof.
  intros kwargs.
  assert (Hinit : ∃ self, instantiate (FW := Stub.framework) RetrievalQA_cls kwargs
                          = Ok self) by (eexists; vm_compute; reflexivity).
  destruct Hinit as [self Hinit]. exists self. split; [exact Hinit|].
  destruct (X6_base_fields_hold_the_arguments_or_defaults (FW := Stub.framework)
              RetrievalQA_cls kwargs self Hinit)
    as (Hchain & Hinput & _ & _ & Houtput & Hsources & _).
  split; [|split; [|split]].
  - assert (Hpassed : kwargs !! "combine_documents_chain" = Some (VChain Stub.the_chain))
      by reflexivity.
    rewrite Hchain in Hpassed. by injection Hpassed.
  - apply Hinput. reflexivity.
  - apply Houtput. reflexivity.
  - apply Hsources. reflexivity.
Defined.

(** A check of X7: a mode and a filter are passed, the limit is not. *)
Lemma X7_VectorDBQA_fields_hold_the_arguments_or_defaults_witness :
  let kwargs : gmap string PyVal :=
    <["search_kwargs" := VDict {[ "filter" := AStr "europe" ]}]>
      (<["search_type" := VStr "mmr"]> Stub.vector_kwargs) in
  ∃ self,
    VectorDBQA.init (FW := Stub.framework) kwargs = Ok self
    ∧ VectorDBQA.vectorstore self = Stub.the_store
    ∧ VectorDBQA.search_type self = "mmr"
    ∧ VectorDBQA.search_kwargs self = {[ "filter" := AStr "europe" ]}.
Proof.
  intros kwargs.
  assert (Hinit : ∃ self, VectorDBQA.init (FW := Stub.framework) kwargs = Ok self)
    by (eexists; vm_compute; reflexivity).
  destruct Hinit as [self Hinit]. exists self. split; [exact Hinit|].
  destruct (X7_VectorDBQA_fields_hold_the_arguments_or_defaults (FW := Stub.framework)
              kwargs self Hinit) as (Hstore & _ & _ & Hmode & _ & Hsearch).
  split; [|split].
  - assert (Hpassed : kwargs !! "vectorstore" = Some (VVectorStore Stub.the_store))
      by reflexivity.
    rewrite Hstore in Hpassed. by injection Hpassed.
  - apply Hmode. reflexivity.
  - apply Hsearch. reflexivity.
Defined.

(** A check of X8: nothing is passed at all. *)
Lemma X8_fields_without_default_are_required_witness :
  (∃ errors,
     instantiate (FW := Stub.framework) VectorDBQA_cls ∅ = Raise (ValidationError errors)
     ∧ ("combine_documents_chain", "field required") ∈ errors)
  ∧ (∃ errors,
       RetrievalQA.init (FW := Stub.framework) ∅ = Raise (ValidationError errors)
       ∧ ("retriever", "field required") ∈ errors)
  ∧ (∃ errors,
       VectorDBQA.init (FW := Stub.framework) ∅ = Raise (ValidationError errors)
       ∧ ("vectorstore", "field required") ∈ errors).
Proof.
  destruct (X8_fields_without_default_are_required (FW := Stub.framework) ∅)
    as (Hchain & Hretriever & Hstore).
  split; [exact (Hchain VectorDBQA_cls eq_refl)|].
  split; [exact (Hretriever eq_refl) | exact (Hstore eq_refl)].
Defined.

(** A check of X10 on an instance constructed with the defaults. *)
Lemma X10_constructed_instance_always_searches_witness :
  VectorDBQA.init (FW := Stub.framework) Stub.vector_kwargs
    = Ok (Stub.vector_db "similarity" 4 ∅)
  ∧ trace (VectorDBQA._get_docs (CO := Stub.collaborators)
             (Stub.vector_db "similarity" 4 ∅) "capital?" Stub.st0).2
    = [Call_similarity_search Stub.the_store "capital?" 4 ∅].
Proof.
  assert (Hinit : VectorDBQA.init (FW := Stub.framework) Stub.vector_kwargs
                  = Ok (Stub.vector_db "similarity" 4 ∅)) by (vm_compute; reflexivity).
  split; [exact Hinit|].
  destruct (X10_constructed_instance_always_searches (FW := Stub.framework)
              (CO := Stub.collaborators) Stub.vector_kwargs
              (Stub.vector_db "similarity" 4 ∅) "capital?" Stub.st0 Hinit)
    as [[[a Ha] _] | [_ Htrace]]; [discriminate Ha | exact Htrace].
Defined.

(** A check of X11: the chain is passed by hand to both classmethods. *)
Lemma X11_chain_keyword_cannot_be_repeated_witness :
  let kwargs : gmap string PyVal :=
    <["combine_documents_chain" := VChain Stub.the_chain]> Stub.retriever_kwargs in
  let repeated :=
    TypeError "got multiple values for keyword argument 'combine_documents_chain'" in
  from_llm (FW := Stub.framework) RetrievalQA_cls Stub.the_llm None kwargs = Raise repeated
  ∧ from_chain_type (FW := Stub.framework) RetrievalQA_cls Stub.the_llm None None kwargs
    = Raise repeated.
Proof.
  intros kwargs repeated.
  assert (Hsome : is_Some (kwargs !! "combine_documents_chain"))
    by (by exists (VChain Stub.the_chain)).
  destruct (X11_chain_keyword_cannot_be_repeated (FW := Stub.framework) RetrievalQA_cls
              Stub.the_llm None None None kwargs Hsome) as (_ & _ & Hllm & Htype).
  split; [exact (Hllm eq_refl eq_refl) | exact (Htype eq_refl I)].
Defined.

(** A check of X12: [chain_type] passed twice, then a type that the
    loader does not know. *)
Lemma X12_from_chain_type_fails_with_the_loader_witness :
  from_chain_type (FW := Stub.picky) RetrievalQA_cls Stub.the_llm (Some "stuff")
    (Some {[ "chain_type" := VStr "refine" ]}) Stub.retriever_kwargs
  = Raise (TypeError "got multiple values for keyword argument 'chain_type'")
  ∧ from_chain_type (FW := Stub.picky) RetrievalQA_cls Stub.the_llm (Some "bogus") None
      Stub.retriever_kwargs
    = Raise (ValueError "Got unsupported chain type").
Proof.
  split.
  - apply (proj1 (X12_from_chain_type_fails_with_the_loader (FW := Stub.picky)
                    RetrievalQA_cls Stub.the_llm (Some "stuff")
                    (Some {[ "chain_type" := VStr "refine" ]}) Stub.retriever_kwargs)).
    by exists (VStr "refine").
  - apply (proj2 (X12_from_chain_type_fails_with_the_loader (FW := Stub.picky)
                    RetrievalQA_cls Stub.the_llm (Some "bogus") None
                    Stub.retriever_kwargs)); reflexivity.
Defined.

(** A check of X13 with the chain type left out. *)
Lemma X13_from_chain_type_constructs_with_the_loaded_chain_witness :
  ∃ self,
    from_chain_type (FW := Stub.picky) RetrievalQA_cls Stub.the_llm None None
      Stub.retriever_kwargs = Ok self
    ∧ combine_documents_chain self = LoadedChain 0.
Proof.
  assert (Hrun : ∃ self, from_chain_type (FW := Stub.picky) RetrievalQA_cls Stub.the_llm
                           None None Stub.retriever_kwargs = Ok self)
    by (eexists; vm_compute; reflexivity).
  destruct Hrun as [self Hrun]. exists self. split; [exact Hrun|].
  destruct (X13_from_chain_type_constructs_with_the_loaded_chain (FW := Stub.picky)
              RetrievalQA_cls Stub.the_llm None None Stub.retriever_kwargs (LoadedChain 0)
              eq_refl eq_refl eq_refl) as [_ Hchain].
  exact (Hchain self Hrun).
Defined.

Section errors_together.
Context {FW : Framework}.

(** X14.  The root validator runs after the fields whatever they
    reported: a construction of [VectorDBQA] with an unrecognised
    [search_type] string raises one [ValidationError] that holds the
    entry of the root validator together with an entry for every unknown
    keyword and for the required fields left out. *)
Theorem X14_search_type_error_comes_with_the_others (kwargs : gmap string PyVal)
    (mode : string) :
  kwargs !! "search_type" = Some (VStr mode) →
  mode ∉ ["similarity"; "mmr"] →
  ∃ errors,
    VectorDBQA.init kwargs = Raise (ValidationError errors)
    ∧ ("__root__", "search_type of " +:+ mode +:+ " not allowed.") ∈ errors
    ∧ (∀ f, is_Some (kwargs !! f) → f ∉ chain_fields ++ VectorDBQA_fields →
            (f, "extra fields not permitted") ∈ errors)
    ∧ (kwargs !! "vectorstore" = None → ("vectorstore", "field required") ∈ errors)
    ∧ (kwargs !! "combine_documents_chain" = None →
       ("combine_documents_chain", "field required") ∈ errors).
Proof.
  intros Hmode Hnot.
  pose proof (base_required kwargs) as Hbase. revert Hbase.
  unfold VectorDBQA.init, VectorDBQA.validate_fields.
  destruct (validate_base_fields kwargs) as [b e0]. simpl. intros Hbase.
  destruct (validate_field kwargs "vectorstore" _ _) as [vs e1] eqn:Hvs.
  destruct (validate_field kwargs "k" _ _) as [k e2].
  assert (Hfield : validate_field kwargs "search_type" str_validator
                     (Some "similarity") = (Some mode, [])).
  { unfold validate_field. by rewrite Hmode, str_validator_str. }
  rewrite Hfield.
  destruct (validate_field kwargs "search_kwargs" _ _) as [kw e4].
  rewrite run_validate_search_type.
  unfold mbind, Res_bind, VectorDBQA.search_type_errors. simpl.
  rewrite bool_decide_eq_true_2 by done.
  eexists. split; [|split; [|split; [|split]]].
  - apply validated_Raise. intros Hnil. by apply app_eq_nil in Hnil as [_ ?].
  - apply elem_of_app. right. apply list_elem_of_here.
  - intros f Hsome Hf. rewrite !elem_of_app. left. right. right.
    by apply extra_errors_elem.
  - intros Hnone. rewrite validate_field_required in Hvs by done.
    injection Hvs as _ <-. rewrite !elem_of_app. left. right. left. right. left.
    apply list_elem_of_here.
  - intros Hnone. rewrite !elem_of_app. left. right. left. left. by apply Hbase.
Qed.

End errors_together.

(** A check of X14: a wrong mode, an unknown keyword and no vector store. *)
Lemma X14_search_type_error_comes_with_the_others_witness :
  let kwargs : gmap string PyVal :=
    <["search_type" := VStr "bogus"]>
      (<["top_k" := VInt 3]> {[ "combine_documents_chain" := VChain Stub.the_chain ]}) in
  ∃ errors,
    VectorDBQA.init (FW := Stub.framework) kwargs = Raise (ValidationError errors)
    ∧ ("__root__", "search_type of bogus not allowed.") ∈ errors
    ∧ ("top_k", "extra fields not permitted") ∈ errors
    ∧ ("vectorstore", "field required") ∈ errors.
Proof.
  intros kwargs.
  assert (Hnot : "bogus" ∉ ["similarity"; "mmr"]) by by_decide.
  assert (Hunknown : "top_k" ∉ (@chain_fields Stub.framework ++ VectorDBQA_fields))
    by by_decide.
  destruct (X14_search_type_error_comes_with_the_others (FW := Stub.framework)
              kwargs "bogus" eq_refl Hnot)
    as (errors & Hinit & Hroot & Hextra & Hstore & _).
  exists errors. split; [exact Hinit|]. split; [exact Hroot|].
  split; [|exact (Hstore eq_refl)].
  apply Hextra; [by exists (VInt 3) | exact Hunknown].
Defined.

(** ** The keys of the result *)

Section result_keys.
Context {CO : Collaborators}.

(** X15.  For every call that completes: without
    [return_source_documents] the result has exactly one key, the output
    key; with it, the value under [source_documents] is the list that
    [_get_docs] returned for the question of this call, element for
    element and in the same order, and when the output key is another
    name than [source_documents] the result has exactly two keys, the
    output key and [source_documents]. *)
Theorem X15_result_keys_and_sources (self : Self) (inputs : gmap string string)
    (st : State) (result : gmap string Output) (st' : State) :
  _call self inputs st = (Ok result, st') →
  (return_source_documents self = false →
   dom result = {[ output_key self ]} ∧ size result = 1%nat)
  ∧ (return_source_documents self = true →
     (∃ question docs st1,
        inputs !! input_key self = Some question
        ∧ _get_docs self question st = (Ok docs, st1)
        ∧ result !! "source_documents" = Some (OutDocs docs))
     ∧ (output_key self ≠ "source_documents" →
        dom result = {[ output_key self; "source_documents" ]}
        ∧ size result = 2%nat)).
Proof.
  intros Hcall.
  apply call_Ok_inv in Hcall as (question & docs & st1 & answer & aux & Hq & Hdocs & _ & ->).
  destruct (return_source_documents self); (split; [|done || (intros _)]).
  - done.
  - split.
    + exists question, docs, st1. split; [done|]. split; [done|]. apply lookup_insert_eq.
    + intros Hne. split; [apply dom_result|].
      rewrite size_result. by rewrite decide_False.
  - intros _. split; [apply dom_singleton_L | apply map_size_singleton].
Qed.

End result_keys.

(** A check of X15 on the stub retriever, with and without the sources. *)
Lemma X15_result_keys_and_sources_witness :
  let self b := RetrievalQA_self (Stub.retrieval "result" b) in
  let inputs : gmap string string := {[ "query" := "capital?" ]} in
  let st' := @Build_State Stub.collaborators tt
    [Call_get_relevant_texts Stub.the_retriever "capital?";
     Call_combine_docs (LoadedChain 0) [Stub.paris] "capital?"] in
  let with_sources : gmap string Output :=
    <["source_documents" := OutDocs [Stub.paris]]> {[ "result" := OutStr "capital?" ]} in
  let without : gmap string Output := {[ "result" := OutStr "capital?" ]} in
  (_call (self true) inputs Stub.st0 = (Ok with_sources, st')
   ∧ size with_sources = 2%nat
   ∧ ∃ docs st1,
       _get_docs (self true) "capital?" Stub.st0 = (Ok docs, st1)
       ∧ with_sources !! "source_documents" = Some (OutDocs docs))
  ∧ (_call (self false) inputs Stub.st0 = (Ok without, st')
     ∧ size without = 1%nat).
Proof.
  intros self inputs st' with_sources without.
  assert (Htrue : _call (self true) inputs Stub.st0 = (Ok with_sources, st'))
    by (vm_compute; reflexivity).
  assert (Hfalse : _call (self false) inputs Stub.st0 = (Ok without, st'))
    by (vm_compute; reflexivity).
  split.
  - split; [exact Htrue|].
    destruct (X15_result_keys_and_sources (CO := Stub.collaborators)
                (self true) inputs Stub.st0 with_sources st' Htrue) as [_ Hsources].
    destruct (Hsources eq_refl) as ((question & docs & st1 & Hq & Hdocs & Hlookup) & Hkeys).
    split.
    + apply Hkeys. discriminate.
    + injection Hq as <-. exists docs, st1. split; [exact Hdocs | exact Hlookup].
  - split; [exact Hfalse|].
    destruct (X15_result_keys_and_sources (CO := Stub.collaborators)
                (self false) inputs Stub.st0 without st' Hfalse) as [Hwithout _].
    exact (proj2 (Hwithout eq_refl)).
Defined.
